(** * LLM-KPI-Dash: the cleaning pipeline and the dataset summary of app.py

    A shallow embedding of [clean_data], [get_dataset_summary] and
    [load_data] (src/app.py), with the pandas operations they call written
    out as functions on typed columns.

    Conventions of the model
    - A pandas Series is a named, typed array.  The dtypes the code tells
      apart are [object], [bool], "number" (int64 and float64, which the
      code never distinguishes), [category], [datetime64[ns]] without a
      time zone and [datetime64[ns, tz]] with one, which
      [select_dtypes(include=['datetime'])] does not select.  A [bool]
      array cannot hold a missing value; the others can.
    - Numbers are exact rationals standing for int64/float64 values; float
      rounding is outside the model.  Timestamps are integers (nanoseconds
      since the epoch) inside the int64 range of pandas; what falls outside
      is the missing marker.
    - What [pd.to_datetime] makes of a column of text depends on the whole
      column (the format is inferred from its first entry, offsets decide
      on a time zone); it is a parameter of the model, with the four
      outcomes pandas has: timestamps without a zone, timestamps with a
      zone, an object column, or an exception.
    - [object] and [category] columns hold text or the missing marker, which
      is what the file readers produce for them.
    - Column labels are strings and unique inside a frame, as [read_csv]
      produces them; a loop [for col in df.columns: df[col] = ...]
      therefore visits the columns once each, left to right.  A workbook
      whose header row holds numbers gives [read_excel] labels that are
      not text, on which [col.lower()] raises; such frames are outside the
      model, and what is proved of [clean_data] as a whole is proved for
      text labels.
    - The pandas semantics followed is that of the 1.x / 2.x series, where
      text columns have dtype [object]. *)

From Stdlib Require Import List String Ascii Bool Arith ZArith QArith Lia.
From Stdlib Require Import DecimalString.
From Stdlib Require Import Sorted Permutation Lqa.
Import ListNotations.

Local Open Scope string_scope.
Local Open Scope list_scope.
Local Open Scope nat_scope.

Set Implicit Arguments.

(* ------------------------------------------------------------------ *)
(** ** Exceptions and results *)

(** The Python exceptions that the modelled code can raise. *)
Inductive exn : Type :=
| ZeroDivisionError            (* int / int with a zero divisor *)
| KeyError (key : string)      (* label lookup on a Series *)
| ReaderError (msg : string)   (* anything raised by read_csv / read_excel *)
| ConversionError (msg : string). (* anything raised inside to_datetime *)

(** [str(e)], as interpolated by an f-string. *)
Definition exn_str (e : exn) : string :=
  match e with
  | ZeroDivisionError => "division by zero"
  | KeyError k => k
  | ReaderError m => m
  | ConversionError m => m
  end.

Inductive Result (A : Type) : Type :=
| OK (a : A)
| Raise (e : exn).

Arguments OK {A} a.
Arguments Raise {A} e.

Definition bind {A B} (r : Result A) (k : A -> Result B) : Result B :=
  match r with
  | OK a => k a
  | Raise e => Raise e
  end.

Notation "x <- r ;; k" := (bind r (fun x => k))
  (at level 61, r at next level, right associativity).

(** A loop body that may raise, run over a list from left to right. *)
Fixpoint mapM {A B} (f : A -> Result B) (l : list A) : Result (list B) :=
  match l with
  | [] => OK []
  | x :: t => y <- f x ;; ys <- mapM f t ;; OK (y :: ys)
  end.

(* ------------------------------------------------------------------ *)
(** ** Data model *)

(** The values of a Series, tagged by dtype.  [None] is the missing marker
    (NaN, None or NaT according to the dtype). *)
Inductive values : Type :=
| ObjectV (v : list (option string))
| BoolV (v : list bool)
| NumberV (v : list (option Q))
| CategoryV (v : list (option string))
| DatetimeV (v : list (option Z))
| DatetimeTZV (v : list (option Z)).

Inductive dtype : Type :=
  object | bool_ | number | category | datetime | datetimetz.

Definition dtype_eqb (a b : dtype) : bool :=
  match a, b with
  | object, object | bool_, bool_ | number, number
  | category, category | datetime, datetime
  | datetimetz, datetimetz => true
  | _, _ => false
  end.

Record Series : Type := mkSeries { name : string; data : values }.

(** A DataFrame is the list of its columns, in column order. *)
Definition DataFrame : Type := list Series.

Definition dtype_of (v : values) : dtype :=
  match v with
  | ObjectV _ => object
  | BoolV _ => bool_
  | NumberV _ => number
  | CategoryV _ => category
  | DatetimeV _ => datetime
  | DatetimeTZV _ => datetimetz
  end.

Definition dtype_ (s : Series) : dtype := dtype_of (data s).

(** A single cell, as seen when rows are compared or inspected. *)
Inductive cell : Type :=
| NaN
| Str (s : string)
| Bool (b : bool)
| Num (q : Q)
| Time (t : Z).

Definition opt_cell {A} (f : A -> cell) (o : option A) : cell :=
  match o with Some a => f a | None => NaN end.

Definition cells (v : values) : list cell :=
  match v with
  | ObjectV l => map (opt_cell Str) l
  | BoolV l => map Bool l
  | NumberV l => map (opt_cell Num) l
  | CategoryV l => map (opt_cell Str) l
  | DatetimeV l => map (opt_cell Time) l
  | DatetimeTZV l => map (opt_cell Time) l
  end.

Definition size (s : Series) : nat := List.length (cells (data s)).

(** [len(df)]: the number of rows. *)
Definition len (df : DataFrame) : nat :=
  match df with
  | [] => 0
  | s :: _ => size s
  end.

(** [df.columns] *)
Definition columns (df : DataFrame) : list string := map name df.

(** Every column has as many cells as the frame has rows. *)
Definition aligned (df : DataFrame) : Prop :=
  Forall (fun s => size s = len df) df.

(** [isna()] on a cell, and whether a column holds a missing value. *)
Definition isna (c : cell) : bool :=
  match c with NaN => true | _ => false end.

Definition has_missing (s : Series) : bool := existsb isna (cells (data s)).

Definition has_value (s : Series) : bool :=
  existsb (fun c => negb (isna c)) (cells (data s)).

(* ------------------------------------------------------------------ *)
(** ** Rows and [drop_duplicates] *)

Definition cell_eqb (a b : cell) : bool :=
  match a, b with
  | NaN, NaN => true                      (* missing equals missing *)
  | Str x, Str y => String.eqb x y
  | Bool x, Bool y => Bool.eqb x y
  | Num x, Num y => Qeq_bool x y
  | Time x, Time y => Z.eqb x y
  | _, _ => false
  end.

Fixpoint row_eqb (r1 r2 : list cell) : bool :=
  match r1, r2 with
  | [], [] => true
  | a :: t1, b :: t2 => cell_eqb a b && row_eqb t1 t2
  | _, _ => false
  end.

(** Row [i] of a frame: one cell per column. *)
Definition row (df : DataFrame) (i : nat) : list cell :=
  map (fun s => nth i (cells (data s)) NaN) df.

(** [df.duplicated()] at position [i] (keep='first'): the row equals an
    earlier one. *)
Definition duplicated (df : DataFrame) (i : nat) : bool :=
  existsb (fun j => row_eqb (row df j) (row df i)) (seq 0 i).

(** Positional selection of the entries of a list. *)
Definition take {A} (idx : list nat) (l : list A) : list A :=
  flat_map (fun i => match nth_error l i with Some x => [x] | None => [] end)
           idx.

Definition take_values (idx : list nat) (v : values) : values :=
  match v with
  | ObjectV l => ObjectV (take idx l)
  | BoolV l => BoolV (take idx l)
  | NumberV l => NumberV (take idx l)
  | CategoryV l => CategoryV (take idx l)
  | DatetimeV l => DatetimeV (take idx l)
  | DatetimeTZV l => DatetimeTZV (take idx l)
  end.

Definition iloc (idx : list nat) (s : Series) : Series :=
  mkSeries (name s) (take_values idx (data s)).

(** [df.empty] *)
Definition empty (df : DataFrame) : bool := len df =? 0.

(** The positions [drop_duplicates] keeps. *)
Definition kept (df : DataFrame) : list nat :=
  filter (fun i => negb (duplicated df i)) (seq 0 (len df)).

(** [df.drop_duplicates(inplace=True)]: pandas returns at once on an empty
    frame; otherwise it keeps the rows that are not marked by
    [duplicated]. *)
Definition drop_duplicates (df : DataFrame) : DataFrame :=
  if empty df then df else map (iloc (kept df)) df.

(* ------------------------------------------------------------------ *)
(** ** Column operations of pandas used by [clean_data] *)

(** The non-missing entries of an array. *)
Fixpoint dropna {A} (l : list (option A)) : list A :=
  match l with
  | [] => []
  | Some x :: t => x :: dropna t
  | None :: t => dropna t
  end.

(** [Series.fillna(value)]; filling with a missing value changes nothing. *)
Definition fillna {A} (value : option A) (l : list (option A))
  : list (option A) :=
  map (fun o => match o with Some x => Some x | None => value end) l.

(** [Series.nunique()]: the number of distinct non-missing values. *)
Definition nunique (l : list (option string)) : nat :=
  List.length (nodup string_dec (dropna l)).

(** [k / n < 0.3] for a count [k] and a positive row count [n]. *)
Definition ratio_below_03 (k n : nat) : bool := 10 * k <? 3 * n.

(** [s.astype("category")] on a text column. *)
Definition astype_category (s : Series) : Series :=
  match data s with
  | ObjectV l => mkSeries (name s) (CategoryV l)
  | _ => s
  end.

(** [s.astype(str)] on a categorical: every entry becomes its text, and the
    missing marker becomes the three letters [nan]; the result has dtype
    [object] and no missing entry. *)
Definition astype_str (l : list (option string)) : list (option string) :=
  map (fun o => match o with Some x => Some x | None => Some "nan" end) l.

(** NaT seen as an int64. *)
Definition iNaT : Z := (-9223372036854775808)%Z.

(** The largest timestamp, [Timestamp.max.value]. *)
Definition max_ts : Z := 9223372036854775807%Z.

(** The int64 values that are timestamps: all but the one that reads as
    NaT. *)
Definition in_bounds (t : Z) : bool := Z.ltb iNaT t && Z.leb t max_ts.

(** A count of nanoseconds stored in a datetime64 array under
    [errors='coerce']: what does not fit is missing. *)
Definition valid (t : Z) : option Z := if in_bounds t then Some t else None.

(** Truncation of a number to an integer count of nanoseconds. *)
Definition ns_of_number (q : Q) : option Z :=
  valid (Z.quot (Qnum q) (Zpos (Qden q))).

Definition opt_bind {A B} (f : A -> option B) (o : option A) : option B :=
  match o with Some a => f a | None => None end.

(** What [pd.to_datetime(text, errors='coerce')] returns when it returns:
    timestamps without a time zone, timestamps with one (kept in UTC), or,
    for entries whose offsets differ, an object column.  Each carries the
    value of the entry at every position, the missing marker for an entry
    that did not parse. *)
Inductive converted : Type :=
| Naive (at_ : nat -> option Z)
| Aware (at_ : nat -> option Z)
| Objects (at_ : nat -> option string).

(** [pd.to_datetime] on a column of text; it may raise. *)
Definition date_converter : Type := list (option string) -> Result converted.

Definition tabulate {A} (f : nat -> A) (n : nat) : list A := map f (seq 0 n).

(** The array of [n] entries that a conversion result stands for. *)
Definition converted_values (c : converted) (n : nat) : values :=
  match c with
  | Naive f => DatetimeV (tabulate (fun k => opt_bind valid (f k)) n)
  | Aware f => DatetimeTZV (tabulate (fun k => opt_bind valid (f k)) n)
  | Objects f => ObjectV (tabulate f n)
  end.

(** Sorting, median and minimum over the non-missing values. *)
Fixpoint insert_sorted (x : Q) (l : list Q) : list Q :=
  match l with
  | [] => [x]
  | y :: t => if Qle_bool x y then x :: l else y :: insert_sorted x t
  end.

Definition sort_values (l : list Q) : list Q := fold_right insert_sorted [] l.

(** [Series.median()] with skipna: the middle value of the sorted
    non-missing values, or the mean of the two middle ones; missing when
    there is none. *)
Definition median (l : list (option Q)) : option Q :=
  let s := sort_values (dropna l) in
  let n := List.length s in
  if n =? 0 then None
  else if Nat.odd n then nth_error s (n / 2)
  else match nth_error s (n / 2 - 1), nth_error s (n / 2) with
       | Some a, Some b => Some (Qred ((a + b) / 2))
       | _, _ => None
       end.

(** [Series.min()] with skipna on timestamps. *)
Definition min_ts (l : list (option Z)) : option Z :=
  match dropna l with
  | [] => None
  | x :: t => Some (fold_left Z.min t x)
  end.

(** [Series.mode()] on booleans: the most frequent values, sorted. *)
Definition mode (l : list bool) : list bool :=
  let t := count_occ bool_dec l true in
  let f := count_occ bool_dec l false in
  match l with
  | [] => []
  | _ => if t <? f then [false] else if f <? t then [true] else [false; true]
  end.

(** [str.lower()] on ASCII letters, and the substring test [kw in s]. *)
Definition lower_ascii (c : ascii) : ascii :=
  let n := nat_of_ascii c in
  if (65 <=? n) && (n <=? 90) then ascii_of_nat (n + 32) else c.

Fixpoint lower (s : string) : string :=
  match s with
  | EmptyString => EmptyString
  | String c t => String (lower_ascii c) (lower t)
  end.

Fixpoint contains (kw s : string) : bool :=
  prefix kw s ||
  match s with
  | EmptyString => false
  | String _ t => contains kw t
  end.

Definition date_keywords : list string :=
  ["date"; "time"; "year"; "day"; "month"].

(** [any(keyword in col.lower() for keyword in [...])] *)
Definition date_like (col : string) : bool :=
  existsb (fun keyword => contains keyword (lower col)) date_keywords.

(** [try: df[col] = conv(df[col])  except: pass] -- the column is rebound
    when the conversion returns and left as it was when it raises. *)
Definition assign_or_pass (conv : Series -> Result Series) (s : Series)
  : Series :=
  match conv s with
  | OK s' => s'
  | Raise _ => s
  end.

Section Pipeline.

(** The scalar parsers of pandas: text to number and text to timestamp.
    [None] means that the text does not parse. *)
Variable parse_number : string -> option Q.
Variable text_to_datetime : date_converter.

(** [pd.to_numeric(s, errors='coerce')].  Numeric and boolean arrays are
    returned as they are; a datetime array is viewed as int64; anything
    else is parsed entry by entry, a failure giving the missing
    marker.  It does not raise. *)
Definition to_numeric_values (v : values) : values :=
  match v with
  | NumberV l => NumberV l
  | BoolV l => BoolV l
  | DatetimeV l =>
      NumberV (map (fun o => match o with
                             | Some t => Some (inject_Z t)
                             | None => Some (inject_Z iNaT)
                             end) l)
  | DatetimeTZV l =>
      NumberV (map (fun o => match o with
                             | Some t => Some (inject_Z t)
                             | None => Some (inject_Z iNaT)
                             end) l)
  | ObjectV l => NumberV (map (opt_bind parse_number) l)
  | CategoryV l => NumberV (map (opt_bind parse_number) l)
  end.

Definition to_numeric (s : Series) : Result Series :=
  OK (mkSeries (name s) (to_numeric_values (data s))).

(** [pd.to_datetime(s, errors='coerce')].  A datetime array is returned as
    it is; numbers are nanoseconds since the epoch, missing when out of
    range; a boolean array, which pandas refuses, comes back all missing
    under [coerce]; text and categories of text go through the
    converter, which may raise. *)
Definition to_datetime_values (v : values) : Result values :=
  match v with
  | DatetimeV l => OK (DatetimeV l)
  | DatetimeTZV l => OK (DatetimeTZV l)
  | NumberV l => OK (DatetimeV (map (opt_bind ns_of_number) l))
  | BoolV l => OK (DatetimeV (map (fun _ => None) l))
  | ObjectV l =>
      c <- text_to_datetime l ;; OK (converted_values c (List.length l))
  | CategoryV l =>
      c <- text_to_datetime l ;; OK (converted_values c (List.length l))
  end.

Definition to_datetime (s : Series) : Result Series :=
  v <- to_datetime_values (data s) ;; OK (mkSeries (name s) v).

(** *** The body of the first loop (lines 78-89), for a frame of [n] rows *)
Definition infer_column (n : nat) (s : Series) : Result Series :=
  match data s with
  | ObjectV l =>
      if n =? 0 then Raise ZeroDivisionError      (* nunique() / len(df) *)
      else if ratio_below_03 (nunique l) n then OK (astype_category s)
      else OK s
  | BoolV _ => OK s                               (* astype(bool) *)
  | _ => OK (assign_or_pass to_numeric s)
  end.

Definition infer_types (df : DataFrame) : Result DataFrame :=
  mapM (infer_column (len df)) df.

(** *** The second loop (lines 92-97), for any conversion function *)
Definition convert_dates_with (conv : Series -> Result Series)
                              (df : DataFrame) : DataFrame :=
  map (fun s => if date_like (name s) then assign_or_pass conv s else s) df.

Definition convert_dates : DataFrame -> DataFrame :=
  convert_dates_with to_datetime.

(** *** Filling missing values (lines 100-115) *)
Definition fill_number (s : Series) : Series :=
  match data s with
  | NumberV l => mkSeries (name s) (NumberV (fillna (median l) l))
  | _ => s
  end.

Definition fill_category (s : Series) : Series :=
  match data s with
  | CategoryV l =>
      let l1 := astype_str l in                      (* astype(str) *)
      let l2 := fillna (Some "Unknown") l1 in        (* fillna("Unknown") *)
      astype_category (mkSeries (name s) (ObjectV l2))
  | _ => s
  end.

Definition fill_bool (s : Series) : Result Series :=
  match data s with
  | BoolV l =>
      match mode l with                              (* mode()[0] *)
      | [] => Raise (KeyError "0")
      | _ :: _ => OK s                               (* nothing to fill *)
      end
  | _ => OK s
  end.

Definition fill_datetime (s : Series) : Series :=
  match data s with
  | DatetimeV l => mkSeries (name s) (DatetimeV (fillna (min_ts l) l))
  | _ => s
  end.

Definition fill_missing (df : DataFrame) : Result DataFrame :=
  let df := map fill_number df in
  let df := map fill_category df in
  df <- mapM fill_bool df ;;
  OK (map fill_datetime df).

(** *** [clean_data] *)
Definition clean_data (df : DataFrame) : Result DataFrame :=
  let df := drop_duplicates df in
  df <- infer_types df ;;
  let df := convert_dates df in
  fill_missing df.

End Pipeline.

(* ------------------------------------------------------------------ *)
(** ** [get_dataset_summary] *)

(** [df.select_dtypes(include=[...])] *)
Definition select_dtypes (include : list dtype) (df : DataFrame) : DataFrame :=
  filter (fun s => existsb (dtype_eqb (dtype_ s)) include) df.

Definition firstn_values (n : nat) (v : values) : values :=
  match v with
  | ObjectV l => ObjectV (firstn n l)
  | BoolV l => BoolV (firstn n l)
  | NumberV l => NumberV (firstn n l)
  | CategoryV l => CategoryV (firstn n l)
  | DatetimeV l => DatetimeV (firstn n l)
  | DatetimeTZV l => DatetimeTZV (firstn n l)
  end.

(** [df.head(n)] *)
Definition head (n : nat) (df : DataFrame) : DataFrame :=
  map (fun s => mkSeries (name s) (firstn_values n (data s))) df.

Definition newline : string := String (ascii_of_nat 10) EmptyString.

(** [str(n)] for a non-negative int. *)
Definition str_of_nat (n : nat) : string :=
  DecimalString.NilEmpty.string_of_uint (Nat.to_uint n).

Section Summary.

(** [repr] of a column label, and the text layout of a frame,
    [DataFrame.to_string(index=False)]. *)
Variable repr : string -> string.
Variable to_string : DataFrame -> string.

(** [str] of a list of labels, as an f-string interpolates it. *)
Definition str_of_list (l : list string) : string :=
  ("[" ++ String.concat ", " (map repr l) ++ "]")%string.

Definition num_rows (df : DataFrame) : nat := len df.
Definition num_cols (df : DataFrame) : nat := List.length df.

Definition numeric_columns (df : DataFrame) : list string :=
  columns (select_dtypes [number] df).
Definition categorical_columns (df : DataFrame) : list string :=
  columns (select_dtypes [object; category] df).
Definition datetime_columns (df : DataFrame) : list string :=
  columns (select_dtypes [datetime] df).
Definition boolean_columns (df : DataFrame) : list string :=
  columns (select_dtypes [bool_] df).

(** The rows shown in the sample section. *)
Definition sample (df : DataFrame) : DataFrame := head 3 df.

Definition get_dataset_summary (df : DataFrame) : string :=
  (newline
   ++ "    **Dataset Overview:**" ++ newline
   ++ "    - Total Rows: " ++ str_of_nat (num_rows df) ++ newline
   ++ "    - Total Columns: " ++ str_of_nat (num_cols df) ++ newline
   ++ "    " ++ newline
   ++ "    **Column Categories:**" ++ newline
   ++ "    - Numeric Columns: "
   ++ str_of_list (numeric_columns df) ++ newline
   ++ "    - Categorical Columns: "
   ++ str_of_list (categorical_columns df) ++ newline
   ++ "    - Date/Time Columns: "
   ++ str_of_list (datetime_columns df) ++ newline
   ++ "    - Boolean Columns: "
   ++ str_of_list (boolean_columns df) ++ newline
   ++ newline
   ++ "    **Sample Data (First 3 Rows):**" ++ newline
   ++ "    " ++ to_string (sample df) ++ newline
   ++ "    ")%string.

End Summary.

(* ------------------------------------------------------------------ *)
(** ** [load_data] *)

(** An uploaded file: its name and its bytes. *)
Record UploadedFile : Type :=
  mkFile { file_name : string; file_bytes : string }.

(** [s.endswith(suffix)] *)
Definition endswith (s suffix : string) : bool :=
  let n := String.length s in
  let m := String.length suffix in
  (m <=? n) && String.eqb (substring (n - m) m s) suffix.

Section Loading.

Variable parse_number : string -> option Q.
Variable text_to_datetime : date_converter.

(** The two readers of pandas; either may raise. *)
Variable read_csv : UploadedFile -> Result DataFrame.
Variable read_excel : UploadedFile -> Result DataFrame.

(** The body of the [try] block. *)
Definition load_and_clean (file : UploadedFile) : Result DataFrame :=
  df <- (if endswith (file_name file) ".csv"
         then read_csv file else read_excel file) ;;
  clean_data parse_number text_to_datetime df.

(** [load_data] returns the frame or [None], together with the messages
    it sent to [st.error]. *)
Definition load_data (file : option UploadedFile)
  : option DataFrame * list string :=
  match file with
  | Some f =>
      match load_and_clean f with
      | OK df => (Some df, [])
      | Raise e => (None, [("Error loading file: " ++ exn_str e)%string])
      end
  | None => (None, [])
  end.

End Loading.

(* ------------------------------------------------------------------ *)
(** ** Predicates, derived operations and the tables of the examples *)

Definition is_object (s : Series) : bool := dtype_eqb (dtype_ s) object.

(** Parsers that accept nothing, used to run the model on inputs whose text
    is never parsed. *)
Definition parse_nothing {A} (_ : string) : option A := None.

(** A converter for which no text is a date: every entry comes back
    missing, without a time zone. *)
Definition no_dates : date_converter := fun _ => OK (Naive (fun _ => None)).

(** The three fills that cannot raise, one after the other. *)
Definition impute (s : Series) : Series :=
  fill_datetime (fill_category (fill_number s)).

(** The header-only CSV file with the single column [a]. *)
Definition header_only : DataFrame := [mkSeries "a" (ObjectV [])].

(** Four rows, a numeric [id] and a text column with one missing entry and
    one distinct value (unique ratio 1/4). *)
Definition status_table : DataFrame :=
  [ mkSeries "id" (NumberV [Some 1%Q; Some 2%Q; Some 3%Q; Some 4%Q]);
    mkSeries "c" (ObjectV [Some "a"; Some "a"; Some "a"; None]) ].

(** One numeric column whose only cell is missing. *)
Definition all_missing : DataFrame := [mkSeries "x" (NumberV [None])].

(** No two rows of the frame are equal across all columns. *)
Definition no_equal_rows (df : DataFrame) : Prop :=
  forall i j, i < j -> j < len df -> row_eqb (row df i) (row df j) = false.

(** One numeric column holding a value and a missing cell. *)
Definition one_and_missing : DataFrame :=
  [mkSeries "x" (NumberV [Some 1%Q; None])].

(** Three rows of which the last repeats the first. *)
Definition repeated_row : DataFrame :=
  [ mkSeries "k" (ObjectV [Some "a"; Some "b"; Some "a"]);
    mkSeries "v" (NumberV [Some 1%Q; Some 2%Q; Some 1%Q]) ].

(** Scenario 4 of the specification: values 1, 3, missing, 7. *)
Definition scenario_4 : DataFrame :=
  [mkSeries "x" (NumberV [Some 1%Q; Some 3%Q; None; Some 7%Q])].

(** Scenario 3 of the specification: year-looking numbers under the name
    [Order_Date]. *)
Definition scenario_3 : DataFrame :=
  [mkSeries "Order_Date" (NumberV [Some 2021%Q; Some 2022%Q; None])].



(** What the whole of [clean_data] does to one column of a frame of [n]
    rows, once the duplicates are gone. *)
Definition finish_column (pt : date_converter) (s1 : Series)
  : Result Series :=
  s3 <- fill_bool
          (fill_category
             (fill_number
                (if date_like (name s1)
                 then assign_or_pass (to_datetime pt) s1 else s1))) ;;
  OK (fill_datetime s3).

(** The column that reaches the imputation step. *)
Definition dated (pt : date_converter) (s1 : Series) : Series :=
  if date_like (name s1) then assign_or_pass (to_datetime pt) s1 else s1.

Definition clean_column (pn : string -> option Q) (pt : date_converter)
           (n : nat) (s : Series) : Result Series :=
  s1 <- infer_column pn n s ;; finish_column pt s1.

(** Every timestamp of the array is one a datetime64 array can hold. *)
Definition stored (l : list (option Z)) : Prop :=
  forall t, In (Some t) l -> in_bounds t = true.

(** A column on which a second pass has nothing left to do, in a frame of
    [n] rows. *)
Definition settled (n : nat) (s : Series) : Prop :=
  match data s with
  | ObjectV l =>
      date_like (name s) = false /\ n <> 0 /\
      ratio_below_03 (nunique l) n = false
  | BoolV l => date_like (name s) = false /\ mode l <> []
  | NumberV l => date_like (name s) = false /\ fillna (median l) l = l
  | CategoryV _ => False
  | DatetimeV l =>
      date_like (name s) = true /\ stored l /\ fillna (min_ts l) l = l
  | DatetimeTZV _ => False
  end.

(** Three distinct rows: a key with three distinct texts and a number with
    one missing cell, which the median (2) fills. *)
Definition keyed_table : DataFrame :=
  [ mkSeries "k" (ObjectV [Some "a"; Some "b"; Some "c"]);
    mkSeries "v" (NumberV [Some 1%Q; None; Some 3%Q]) ].

Definition keyed_table_clean : DataFrame :=
  [ mkSeries "k" (ObjectV [Some "a"; Some "b"; Some "c"]);
    mkSeries "v" (NumberV [Some 1%Q; Some 2%Q; Some 3%Q]) ].

(* ------------------------------------------------------------------ *)
(** ** [generate_insights] and [main] *)

(** The text returned when the chain raises. *)
Definition insights_fallback : string :=
  "⚠️ AI could not generate insights. Please check your data.".

Section Insights.

(** [repr] and [to_string] as in the summary; [run_chain] is
    [llm_chain.run] applied to the value of the template variable
    dataset_summary: the prompt template and the language model behind it.
    It may raise. *)
Variable repr : string -> string.
Variable to_string : DataFrame -> string.
Variable run_chain : string -> Result string.

(** [generate_insights] returns the text for the page together with the
    messages it sent to [st.error]. *)
Definition generate_insights (df : DataFrame) : string * list string :=
  let dataset_summary := get_dataset_summary repr to_string df in
  match run_chain dataset_summary with
  | OK insights => (insights, [])
  | Raise e =>
      (insights_fallback,
       [("Error generating AI insights: " ++ exn_str e)%string])
  end.

End Insights.

(** What [main] puts on the page, in order. *)
Inductive widget : Type :=
| Markdown (html : string)          (* st.markdown *)
| ErrorBox (msg : string)           (* st.error *)
| DataframeView (df : DataFrame)    (* st.dataframe *)
| WriteText (text : string).        (* st.write *)

(** The double quote character of the HTML attributes. *)
Definition dq : string := String (ascii_of_nat 34) EmptyString.

Definition page_title : string :=
  ("<h1 class=" ++ dq ++ "title" ++ dq
   ++ ">🚀 AI-Powered Data Insights</h1>")%string.

Definition page_subheader : string :=
  ("<h2 class=" ++ dq ++ "subheader" ++ dq
   ++ ">📊 Upload Your Dataset & Get AI-Driven Insights</h2>")%string.

Definition preview_header : string :=
  ("<h2 class=" ++ dq ++ "subheader" ++ dq ++ ">📜 Data Preview</h2>")%string.

Definition insights_header : string :=
  ("<h2 class=" ++ dq ++ "subheader" ++ dq
   ++ ">🔍 AI-Generated Insights</h2>")%string.

Section App.

Variable parse_number : string -> option Q.
Variable text_to_datetime : date_converter.
Variable read_csv : UploadedFile -> Result DataFrame.
Variable read_excel : UploadedFile -> Result DataFrame.
Variable repr : string -> string.
Variable to_string : DataFrame -> string.
Variable run_chain : string -> Result string.

(** The part of [main] that runs once a frame is loaded. *)
Definition show_frame (df : DataFrame) : list widget :=
  let (insights, errors) := generate_insights repr to_string run_chain df in
  [Markdown preview_header; DataframeView (head 10 df);
   Markdown insights_header]
  ++ map ErrorBox errors ++ [WriteText insights].

(** [main], given what the file uploader returned. *)
Definition main (uploaded_file : option UploadedFile) : list widget :=
  [Markdown page_title; Markdown page_subheader]
  ++ match uploaded_file with
     | Some file =>
         let (df, errors) :=
           load_data parse_number text_to_datetime read_csv read_excel
                     (Some file) in
         map ErrorBox errors
         ++ match df with
            | Some df => show_frame df
            | None => []
            end
     | None => []
     end.

End App.

(** The first loop on a column of a frame without rows, when the column is
    not a text column. *)
Definition infer_no_rows (pn : string -> option Q) (s : Series) : Series :=
  match data s with
  | ObjectV _ => s
  | BoolV _ => s
  | _ => assign_or_pass (to_numeric pn) s
  end.

Definition is_plain_bool (s : Series) : bool :=
  dtype_eqb (dtype_ s) bool_ && negb (date_like (name s)).

(** A table holding the single boolean column [flag] and no row. *)
Definition no_rows_flag : DataFrame := [mkSeries "flag" (BoolV [])].


(** A converter that reads one spelling of the first second of 2021 with
    its UTC offset and nothing else; like pandas on text with offsets, it
    returns timestamps with a time zone. *)
Definition offset_dates : date_converter :=
  fun l =>
    OK (Aware (fun k =>
                 match nth k l None with
                 | Some t =>
                     if String.eqb t "2021-01-01T00:00:00+00:00"
                     then Some 1609459200000000000%Z else None
                 | None => None
                 end)).

(** A date column holding one timestamp with an offset and one entry that
    is no date. *)
Definition offset_table : DataFrame :=
  [mkSeries "date" (ObjectV [Some "2021-01-01T00:00:00+00:00"; Some "bad"])].

Definition offset_table_clean : DataFrame :=
  [mkSeries "date" (DatetimeTZV [Some 1609459200000000000%Z; None])].

(** [status_table] after normalization, and after a second one. *)
Definition status_table_clean : DataFrame :=
  [ mkSeries "id" (NumberV [Some 1%Q; Some 2%Q; Some 3%Q; Some 4%Q]);
    mkSeries "c" (CategoryV [Some "a"; Some "a"; Some "a"; Some "nan"]) ].

Definition status_table_twice : DataFrame :=
  [ mkSeries "id" (NumberV [Some 1%Q; Some 2%Q; Some 3%Q; Some 4%Q]);
    mkSeries "c" (NumberV [None; None; None; None]) ].

(** [offset_table] after a second normalization. *)
Definition offset_table_twice : DataFrame :=
  [mkSeries "date" (DatetimeV [Some 1609459200000000000%Z;
                               Some 1609459200000000000%Z])].


(** A converter that raises on every column, as [to_datetime] does on
    text it cannot handle as a whole. *)
Definition failing_dates : date_converter :=
  fun _ => Raise (ConversionError "Unknown datetime string format").

(** A text column of distinct entries under a date-like name. *)
Definition birthday_table : DataFrame :=
  [mkSeries "birthday" (ObjectV [Some "spring"; Some "autumn"])].

(* ================================================================== *)
(** * Properties *)

Unset Implicit Arguments.

(** ** Loops over the columns *)

Lemma mapM_length {A B} (f : A -> Result B) (l : list A) (l' : list B) :
  mapM f l = OK l' -> List.length l' = List.length l.
Proof.
  revert l'; induction l as [|x t IH]; simpl; intros l' H.
  - injection H as <-; reflexivity.
  - destruct (f x) as [y|e]; simpl in H; [|discriminate].
    destruct (mapM f t) as [ys|e]; simpl in H; [|discriminate].
    injection H as <-; simpl; f_equal; apply IH; reflexivity.
Qed.

Lemma mapM_nth_error {A B} (f : A -> Result B) (l : list A) (l' : list B)
      (i : nat) (x : A) :
  mapM f l = OK l' -> nth_error l i = Some x ->
  exists y, f x = OK y /\ nth_error l' i = Some y.
Proof.
  revert l' i; induction l as [|a t IH]; simpl; intros l' i H Hi.
  - destruct i; discriminate.
  - destruct (f a) as [y|e] eqn:Ha; simpl in H; [|discriminate].
    destruct (mapM f t) as [ys|e]; simpl in H; [|discriminate].
    injection H as <-.
    destruct i as [|i]; simpl in *.
    + injection Hi as <-; eauto.
    + eapply IH; eauto.
Qed.

Lemma mapM_map {A B} (f : A -> Result B) (g : A -> B) (l : list A) :
  (forall x, In x l -> f x = OK (g x)) -> mapM f l = OK (map g l).
Proof.
  induction l as [|a t IH]; simpl; intros H; [reflexivity|].
  rewrite (H a (or_introl eq_refl)); simpl.
  rewrite IH by (intros; apply H; right; assumption); reflexivity.
Qed.

Lemma mapM_after_map {A B C} (g : A -> B) (f : B -> Result C) (l : list A) :
  mapM f (map g l) = mapM (fun x => f (g x)) l.
Proof.
  induction l as [|a t IH]; simpl; [reflexivity|]; rewrite IH; reflexivity.
Qed.

Lemma mapM_then_map {A B C} (f : A -> Result B) (h : B -> C) (l : list A) :
  (l' <- mapM f l ;; OK (map h l'))
  = mapM (fun x => y <- f x ;; OK (h y)) l.
Proof.
  induction l as [|a t IH]; simpl; [reflexivity|].
  destruct (f a) as [y|e]; simpl; [|reflexivity].
  rewrite <- IH; destruct (mapM f t); reflexivity.
Qed.

(** In the Result monad two loops over the same columns succeed exactly
    when the loop with the two bodies in sequence does. *)
Lemma mapM_fuse {A B C} (f : A -> Result B) (g : B -> Result C)
      (l : list A) (r : list C) :
  (l' <- mapM f l ;; mapM g l') = OK r <->
  mapM (fun x => y <- f x ;; g y) l = OK r.
Proof.
  revert r; induction l as [|a t IH]; simpl; intros r; [tauto|].
  destruct (f a) as [y|e]; simpl; [|split; discriminate].
  destruct (mapM f t) as [ys|e] eqn:Ht; simpl in *.
  - destruct (g y) as [z|e]; simpl; [|split; discriminate].
    destruct (mapM g ys) as [zs|e1];
      destruct (mapM (fun x => y0 <- f x ;; g y0) t) as [zs'|e2]; simpl.
    + destruct (IH zs) as [H _]. specialize (H eq_refl).
      injection H as ->. tauto.
    + destruct (IH zs) as [H _]; specialize (H eq_refl); discriminate.
    + destruct (IH zs') as [_ H]; specialize (H eq_refl); discriminate.
    + split; discriminate.
  - split; [discriminate|].
    destruct (g y) as [z|e1]; simpl; [|discriminate].
    destruct (mapM (fun x => y0 <- f x ;; g y0) t) as [zs'|e2]; simpl;
      [|discriminate].
    destruct (IH zs') as [_ H]; specialize (H eq_refl); discriminate.
Qed.

(* ------------------------------------------------------------------ *)
(** ** Small facts about the column operations *)

Lemma fillna_None {A} (l : list (option A)) : fillna None l = l.
Proof.
  unfold fillna. rewrite <- (map_id l) at 2.
  apply map_ext. intros [x|]; reflexivity.
Qed.

Lemma fillna_length {A} (v : option A) (l : list (option A)) :
  List.length (fillna v l) = List.length l.
Proof. unfold fillna; apply length_map. Qed.

Lemma dropna_nil_no_value {A} (f : A -> cell) (l : list (option A)) :
  (forall a, isna (f a) = false) ->
  existsb (fun c => negb (isna c)) (map (opt_cell f) l) = false ->
  dropna l = [].
Proof.
  intros Hf; induction l as [|[x|] t IH]; simpl; intros H.
  - reflexivity.
  - rewrite Hf in H; discriminate.
  - apply IH; exact H.
Qed.

Lemma mode_nonempty (b : bool) (l : list bool) : mode (b :: l) <> [].
Proof.
  unfold mode.
  destruct (count_occ bool_dec (b :: l) true <? count_occ bool_dec (b :: l) false);
    [discriminate|].
  destruct (count_occ bool_dec (b :: l) false <? count_occ bool_dec (b :: l) true);
    discriminate.
Qed.

Lemma fill_bool_nonempty (s : Series) :
  data s <> BoolV [] ->
  fill_bool (fill_category (fill_number s)) = OK (fill_category (fill_number s)).
Proof.
  destruct s as [nm v]; destruct v as [l|l|l|l|l|l]; simpl; intros H;
    try reflexivity.
  unfold fill_bool; simpl.
  destruct l as [|b l]; [congruence|].
  destruct (mode (b :: l)) eqn:E; [|reflexivity].
  exfalso; exact (mode_nonempty b l E).
Qed.

Lemma fill_missing_no_empty_bool (df : DataFrame) :
  (forall s, In s df -> data s <> BoolV []) ->
  fill_missing df = OK (map impute df).
Proof.
  intros H. unfold fill_missing.
  rewrite map_map, mapM_after_map.
  rewrite (mapM_map _ (fun s => fill_category (fill_number s))).
  - simpl. rewrite map_map. reflexivity.
  - intros s Hs. apply fill_bool_nonempty, H, Hs.
Qed.

Lemma aligned_size (df : DataFrame) (s : Series) :
  aligned df -> In s df -> size s = len df.
Proof. intros Ha Hs. unfold aligned in Ha. rewrite Forall_forall in Ha. auto. Qed.

Lemma infer_zero_rows (pn : string -> option Q) (l : list Series) :
  existsb is_object l = true ->
  mapM (infer_column pn 0) l = Raise ZeroDivisionError.
Proof.
  induction l as [|[nm v] t IH]; intros H; [discriminate|].
  change (mapM (infer_column pn 0) (mkSeries nm v :: t))
    with (y <- infer_column pn 0 (mkSeries nm v) ;;
          ys <- mapM (infer_column pn 0) t ;; OK (y :: ys)).
  destruct v; simpl in H; try reflexivity; rewrite (IH H); reflexivity.
Qed.

(* ------------------------------------------------------------------ *)
(** ** Empty tables *)

(** C1 (fails on the code).  A table without rows that has a text column
    makes [clean_data] raise ZeroDivisionError: the first text column
    reaches [nunique() / len(df)] with [len(df) = 0]. *)
Theorem clean_data_no_rows_text_column_raises
  (pn : string -> option Q) (pt : date_converter) (df : DataFrame) :
  len df = 0 ->
  existsb is_object df = true ->
  clean_data pn pt df = Raise ZeroDivisionError.
Proof.
  intros Hn Ho. unfold clean_data, drop_duplicates, empty.
  rewrite Hn; simpl. unfold infer_types. rewrite Hn.
  rewrite (infer_zero_rows pn df Ho). reflexivity.
Qed.

Lemma clean_data_no_rows_text_column_raises_witness :
  len header_only = 0 /\ existsb is_object header_only = true /\
  clean_data parse_nothing no_dates header_only = Raise ZeroDivisionError.
Proof.
  split; [reflexivity|]. split; [reflexivity|].
  apply clean_data_no_rows_text_column_raises; reflexivity.
Defined.

(* ------------------------------------------------------------------ *)
(** ** Categorical columns *)

Lemma fill_category_values (nm : string) (l : list (option string)) :
  fill_category (mkSeries nm (CategoryV l))
  = mkSeries nm (CategoryV (astype_str l)).
Proof.
  unfold fill_category, astype_category; simpl. do 2 f_equal.
  unfold fillna, astype_str. rewrite map_map.
  apply map_ext. intros [x|]; reflexivity.
Qed.

(** C4 (fails on the code).  The missing entry of a Categorical column comes
    out of [clean_data] as the text [nan], not as [Unknown]: [astype(str)]
    has already turned it into text when [fillna("Unknown")] runs.  The
    column is Categorical afterwards. *)
Theorem missing_category_becomes_nan_text
  (pn : string -> option Q) (pt : date_converter) :
  clean_data pn pt status_table
  = OK [ mkSeries "id" (NumberV [Some 1%Q; Some 2%Q; Some 3%Q; Some 4%Q]);
         mkSeries "c" (CategoryV [Some "a"; Some "a"; Some "a"; Some "nan"]) ].
Proof. reflexivity. Qed.

(* ------------------------------------------------------------------ *)
(** ** Columns without any value *)

Lemma impute_no_value (s : Series) :
  dtype_ s = number \/ dtype_ s = datetime ->
  has_value s = false ->
  impute s = s.
Proof.
  destruct s as [nm v]; unfold has_value, impute, dtype_; simpl.
  destruct v as [l|l|l|l|l|l]; simpl; intros [D|D] H; try discriminate.
  - apply dropna_nil_no_value in H; [|reflexivity].
    unfold fill_number, median; simpl. rewrite H; simpl.
    rewrite fillna_None. reflexivity.
  - apply dropna_nil_no_value in H; [|reflexivity].
    unfold fill_datetime, min_ts; simpl. rewrite H.
    rewrite fillna_None. reflexivity.
Qed.

Lemma no_empty_bool (df : DataFrame) :
  aligned df -> 0 < len df -> forall s, In s df -> data s <> BoolV [].
Proof.
  intros Ha Hn s Hs E. pose proof (aligned_size df s Ha Hs) as Hsz.
  unfold size in Hsz. rewrite E in Hsz. simpl in Hsz. lia.
Qed.

(** C5, counterexample.  A Numeric column without a single value does not
    make [clean_data] fail: the table comes back as it was. *)
Lemma all_missing_column_is_no_error :
  Forall (fun s => dtype_ s = number /\ has_value s = false) all_missing /\
  clean_data parse_nothing no_dates all_missing = OK all_missing.
Proof.
  split; [|reflexivity].
  constructor; [split; reflexivity|constructor].
Qed.

(** C5, as amended.  In a table with at least one row, a Numeric or
    Datetime column that holds no value before imputation does not stop
    the imputation step: the step returns, and that column is left as it
    was, entirely missing. *)
Theorem all_missing_column_left_missing
  (df : DataFrame) (i : nat) (s : Series) :
  aligned df -> 0 < len df ->
  nth_error df i = Some s ->
  dtype_ s = number \/ dtype_ s = datetime ->
  has_value s = false ->
  exists df', fill_missing df = OK df' /\ nth_error df' i = Some s.
Proof.
  intros Ha Hn Hi Hd Hv.
  exists (map impute df). split.
  - apply fill_missing_no_empty_bool, no_empty_bool; assumption.
  - rewrite (map_nth_error impute i df Hi).
    rewrite (impute_no_value s Hd Hv). reflexivity.
Qed.

Lemma all_missing_column_left_missing_witness :
  exists df', fill_missing all_missing = OK df' /\
              nth_error df' 0 = Some (mkSeries "x" (NumberV [None])).
Proof.
  apply (all_missing_column_left_missing all_missing 0
           (mkSeries "x" (NumberV [None]))).
  - repeat constructor.
  - vm_compute; lia.
  - reflexivity.
  - left; reflexivity.
  - reflexivity.
Defined.

(* ------------------------------------------------------------------ *)
(** ** Type inference *)

Lemma dropna_In {A} (l : list (option A)) (x : A) :
  In x (dropna l) -> In (Some x) l.
Proof.
  induction l as [|[y|] t IH]; simpl; intros H; [exact H| |].
  - destruct H as [->|H]; [left; reflexivity|right; exact (IH H)].
  - right; exact (IH H).
Qed.

Lemma In_dropna {A} (l : list (option A)) (x : A) :
  In (Some x) l -> In x (dropna l).
Proof.
  induction l as [|[y|] t IH]; simpl; intros H; [exact H| |].
  - destruct H as [H|H]; [injection H as ->; left; reflexivity|].
    right; exact (IH H).
  - destruct H as [H|H]; [discriminate|exact (IH H)].
Qed.




(* ------------------------------------------------------------------ *)
(** ** Loading *)

(** C10.  Whatever is raised inside the [try] block of [load_data], by the
    reader or by [clean_data], is reported under the one prefix
    [Error loading file: ] and [None] is returned. *)
Theorem load_data_reports_any_failure
  (pn : string -> option Q) (pt : date_converter)
  (read_csv read_excel : UploadedFile -> Result DataFrame)
  (file : UploadedFile) (e : exn) :
  let reader := if endswith (file_name file) ".csv"
                then read_csv else read_excel in
  reader file = Raise e \/
  (exists df, reader file = OK df /\ clean_data pn pt df = Raise e) ->
  load_data pn pt read_csv read_excel (Some file)
  = (None, [("Error loading file: " ++ exn_str e)%string]).
Proof.
  intros reader H. unfold load_data, load_and_clean.
  assert ((if endswith (file_name file) ".csv"
           then read_csv file else read_excel file) = reader file) as ->
    by (unfold reader; destruct (endswith (file_name file) ".csv"); reflexivity).
  destruct H as [->|[df [-> H]]]; simpl; [reflexivity|].
  rewrite H. reflexivity.
Qed.

(** A header-only CSV upload: the cleaning stage divides by zero and the
    user sees a loading error. *)
Lemma load_data_reports_any_failure_witness :
  load_data parse_nothing no_dates
            (fun _ => OK header_only) (fun _ => Raise (ReaderError "not a workbook"))
            (Some (mkFile "sales.csv" "a"))
  = (None, ["Error loading file: division by zero"]).
Proof.
  apply (load_data_reports_any_failure parse_nothing no_dates
           (fun _ => OK header_only)
           (fun _ => Raise (ReaderError "not a workbook"))
           (mkFile "sales.csv" "a") ZeroDivisionError).
  right. exists header_only. split; reflexivity.
Defined.

(* ------------------------------------------------------------------ *)
(** ** Deduplication *)

(** C2, counterexample.  The two rows of [one_and_missing] differ, so
    both survive deduplication; the median then fills the missing cell with
    the value of the other row and the output holds two equal rows. *)
Lemma imputation_makes_rows_equal :
  ~ (forall df df',
        clean_data parse_nothing no_dates df = OK df' ->
        no_equal_rows df').
Proof.
  intros H.
  specialize (H one_and_missing [mkSeries "x" (NumberV [Some 1%Q; Some 1%Q])]
                eq_refl 0 1).
  assert (0 < 1) as H01 by lia.
  assert (1 < len [mkSeries "x" (NumberV [Some 1%Q; Some 1%Q])]) as H1
    by (vm_compute; lia).
  specialize (H H01 H1). vm_compute in H. discriminate.
Qed.

Lemma take_map {A B} (f : A -> B) (idx : list nat) (l : list A) :
  take idx (map f l) = map f (take idx l).
Proof.
  unfold take. induction idx as [|i t IH]; simpl; [reflexivity|].
  rewrite map_app, IH, nth_error_map.
  destruct (nth_error l i); reflexivity.
Qed.

Lemma cells_take_values (idx : list nat) (v : values) :
  cells (take_values idx v) = take idx (cells v).
Proof. destruct v; simpl; rewrite take_map; reflexivity. Qed.

Lemma take_in_range {A} (d : A) (idx : list nat) (l : list A) :
  (forall i, In i idx -> i < List.length l) ->
  take idx l = map (fun i => nth i l d) idx.
Proof.
  unfold take. induction idx as [|i t IH]; simpl; intros H; [reflexivity|].
  rewrite (nth_error_nth' l d (H i (or_introl eq_refl))). simpl.
  f_equal. apply IH. intros j Hj. apply H. right. exact Hj.
Qed.

Lemma nth_take {A} (d : A) (idx : list nat) (l : list A) (k : nat) :
  (forall i, In i idx -> i < List.length l) ->
  k < List.length idx ->
  nth k (take idx l) d = nth (nth k idx 0) l d.
Proof.
  intros Hr Hk. rewrite (take_in_range d idx l Hr).
  rewrite (nth_indep _ d (nth 0 l d)) by (rewrite length_map; exact Hk).
  apply (map_nth (fun i => nth i l d)).
Qed.

Lemma kept_in (df : DataFrame) (i : nat) :
  In i (kept df) -> i < len df /\ duplicated df i = false.
Proof.
  unfold kept. rewrite filter_In, in_seq. intros [Hs Hd].
  split; [lia|]. destruct (duplicated df i); [discriminate|reflexivity].
Qed.

(** A row that [duplicated] does not mark differs from every earlier row. *)
Lemma duplicated_false (df : DataFrame) (i j : nat) :
  duplicated df j = false -> i < j -> row_eqb (row df i) (row df j) = false.
Proof.
  unfold duplicated. intros H Hij.
  destruct (row_eqb (row df i) (row df j)) eqn:E; [|reflexivity].
  assert (existsb (fun k => row_eqb (row df k) (row df j)) (seq 0 j) = true)
    as Hex.
  { apply existsb_exists. exists i. split; [|exact E]. apply in_seq. lia. }
  rewrite Hex in H. discriminate.
Qed.

Lemma filter_seq_lower (p : nat -> bool) (n start k : nat) :
  k < List.length (filter p (seq start n)) ->
  start <= nth k (filter p (seq start n)) 0.
Proof.
  intros Hk. pose proof (nth_In (filter p (seq start n)) 0 Hk) as Hin.
  apply filter_In in Hin. destruct Hin as [Hin _].
  apply in_seq in Hin. lia.
Qed.

(** The positions that a filter keeps out of a range come in increasing
    order. *)
Lemma filter_seq_increasing (p : nat -> bool) (n : nat) :
  forall start k1 k2,
    k1 < k2 -> k2 < List.length (filter p (seq start n)) ->
    nth k1 (filter p (seq start n)) 0 < nth k2 (filter p (seq start n)) 0.
Proof.
  induction n as [|n IH]; intros start k1 k2 H12 Hk; simpl in *; [lia|].
  destruct (p start); simpl in *.
  - destruct k2 as [|k2]; [lia|].
    assert (k2 < List.length (filter p (seq (S start) n))) as Hk2 by lia.
    destruct k1 as [|k1].
    + pose proof (filter_seq_lower p n (S start) k2 Hk2). lia.
    + apply IH; lia.
  - apply IH; assumption.
Qed.

Lemma size_iloc (idx : list nat) (s : Series) :
  (forall i, In i idx -> i < size s) ->
  size (iloc idx s) = List.length idx.
Proof.
  intros H. unfold size, iloc; simpl. rewrite cells_take_values.
  rewrite (take_in_range NaN idx _ H). apply length_map.
Qed.

Lemma row_iloc (df : DataFrame) (idx : list nat) (k : nat) :
  aligned df ->
  (forall i, In i idx -> i < len df) ->
  k < List.length idx ->
  row (map (iloc idx) df) k = row df (nth k idx 0).
Proof.
  intros Ha Hr Hk. unfold row. rewrite map_map.
  apply map_ext_in. intros s Hs. simpl.
  rewrite cells_take_values. apply nth_take; [|exact Hk].
  intros i Hi. pose proof (aligned_size df s Ha Hs) as Hsz.
  unfold size in Hsz. rewrite Hsz. apply Hr, Hi.
Qed.

Lemma len_iloc (df : DataFrame) (idx : list nat) :
  df <> [] ->
  (forall i, In i idx -> i < len df) ->
  len (map (iloc idx) df) = List.length idx.
Proof.
  destruct df as [|s t]; intros Hne Hr; [congruence|].
  simpl. apply size_iloc. exact Hr.
Qed.

Lemma drop_duplicates_no_equal_rows (df : DataFrame) :
  aligned df -> no_equal_rows (drop_duplicates df).
Proof.
  intros Ha i j Hij Hj. unfold drop_duplicates in *.
  destruct (empty df) eqn:He.
  - unfold empty in He. apply Nat.eqb_eq in He. lia.
  - assert (df <> []) as Hne by (intros ->; discriminate).
    assert (forall k, In k (kept df) -> k < len df) as Hr
      by (intros k Hk; apply (kept_in df k Hk)).
    rewrite (len_iloc df (kept df) Hne Hr) in Hj.
    rewrite !row_iloc by (assumption || lia).
    apply duplicated_false.
    + apply (kept_in df). apply nth_In. exact Hj.
    + apply filter_seq_increasing; assumption.
Qed.

(** *** The later steps keep the number of rows *)

Lemma len_map (g : Series -> Series) (df : DataFrame) :
  (forall s, size (g s) = size s) -> len (map g df) = len df.
Proof. intros H. destruct df as [|s t]; simpl; [reflexivity|apply H]. Qed.

Lemma len_mapM (f : Series -> Result Series) (df df' : DataFrame) :
  (forall s s', f s = OK s' -> size s' = size s) ->
  mapM f df = OK df' -> len df' = len df.
Proof.
  intros H Hm. destruct df as [|s t]; simpl in Hm.
  - injection Hm as <-. reflexivity.
  - destruct (f s) as [y|e] eqn:E; simpl in Hm; [|discriminate].
    destruct (mapM f t) as [ys|e]; simpl in Hm; [|discriminate].
    injection Hm as <-. simpl. apply H, E.
Qed.

Lemma size_to_numeric (pn : string -> option Q) (nm : string) (v : values) :
  size (mkSeries nm (to_numeric_values pn v)) = List.length (cells v).
Proof. unfold size; destruct v; simpl; rewrite ?length_map; reflexivity. Qed.

Lemma tabulate_length {A} (f : nat -> A) (n : nat) :
  List.length (tabulate f n) = n.
Proof. unfold tabulate. rewrite length_map. apply length_seq. Qed.

Lemma size_converted (nm : string) (c : converted) (n : nat) :
  size (mkSeries nm (converted_values c n)) = n.
Proof.
  unfold size; destruct c; simpl; rewrite length_map; apply tabulate_length.
Qed.

Lemma size_to_datetime (pt : date_converter) (s : Series) :
  size (assign_or_pass (to_datetime pt) s) = size s.
Proof.
  destruct s as [nm v]. unfold assign_or_pass, to_datetime; simpl.
  destruct v as [l|l|l|l|l|l]; simpl; try reflexivity.
  - destruct (pt l) as [c|e]; simpl; [|reflexivity].
    rewrite size_converted. unfold size; simpl. rewrite length_map.
    reflexivity.
  - unfold size; simpl. rewrite !length_map. reflexivity.
  - unfold size; simpl. rewrite !length_map. reflexivity.
  - destruct (pt l) as [c|e]; simpl; [|reflexivity].
    rewrite size_converted. unfold size; simpl. rewrite length_map.
    reflexivity.
Qed.

Lemma size_infer_column (pn : string -> option Q) (n : nat) (s s' : Series) :
  infer_column pn n s = OK s' -> size s' = size s.
Proof.
  destruct s as [nm v]. unfold infer_column; simpl.
  destruct v as [l|l|l|l|l|l]; simpl; intros H.
  - destruct (n =? 0); [discriminate|].
    destruct (ratio_below_03 (nunique l) n); injection H as <-; reflexivity.
  - injection H as <-; reflexivity.
  - injection H as <-; reflexivity.
  - injection H as <-. apply (size_to_numeric pn nm (CategoryV l)).
  - injection H as <-. apply (size_to_numeric pn nm (DatetimeV l)).
  - injection H as <-. apply (size_to_numeric pn nm (DatetimeTZV l)).
Qed.

Lemma size_convert_date (pt : date_converter) (s : Series) :
  size (if date_like (name s) then assign_or_pass (to_datetime pt) s else s)
  = size s.
Proof.
  destruct (date_like (name s)); [|reflexivity].
  apply size_to_datetime.
Qed.

Lemma size_fill_number (s : Series) : size (fill_number s) = size s.
Proof.
  destruct s as [nm v]; destruct v; try reflexivity.
  unfold fill_number, size, fillna; simpl. rewrite !length_map. reflexivity.
Qed.

Lemma size_fill_category (s : Series) : size (fill_category s) = size s.
Proof.
  destruct s as [nm v]; destruct v; try reflexivity.
  rewrite fill_category_values. unfold size, astype_str; simpl.
  rewrite !length_map. reflexivity.
Qed.

Lemma size_fill_bool (s s' : Series) : fill_bool s = OK s' -> size s' = size s.
Proof.
  destruct s as [nm v]; unfold fill_bool; simpl.
  destruct v as [l|l|l|l|l|l]; intros H; try (injection H as <-; reflexivity).
  destruct (mode l); [discriminate|]. injection H as <-; reflexivity.
Qed.

Lemma size_fill_datetime (s : Series) : size (fill_datetime s) = size s.
Proof.
  destruct s as [nm v]; destruct v; try reflexivity.
  unfold fill_datetime, size, fillna; simpl. rewrite !length_map. reflexivity.
Qed.

Lemma len_fill_missing (df df' : DataFrame) :
  fill_missing df = OK df' -> len df' = len df.
Proof.
  unfold fill_missing. intros H.
  destruct (mapM fill_bool (map fill_category (map fill_number df)))
    as [d|e] eqn:E; simpl in H; [|discriminate].
  injection H as <-.
  rewrite (len_map fill_datetime d size_fill_datetime).
  rewrite (len_mapM fill_bool _ d size_fill_bool E).
  rewrite (len_map fill_category _ size_fill_category).
  apply (len_map fill_number df size_fill_number).
Qed.

Lemma len_clean_data (pn : string -> option Q) (pt : date_converter)
      (df df' : DataFrame) :
  clean_data pn pt df = OK df' -> len df' = len (drop_duplicates df).
Proof.
  unfold clean_data, infer_types, convert_dates, convert_dates_with.
  intros H.
  destruct (mapM (infer_column pn (len (drop_duplicates df)))
                 (drop_duplicates df)) as [d|e] eqn:E; simpl in H;
    [|discriminate].
  rewrite (len_fill_missing _ df' H).
  rewrite (len_map _ d (size_convert_date pt)).
  apply (len_mapM _ _ d (size_infer_column pn _) E).
Qed.

(** C2, as amended.  Directly after the deduplication step no two rows are
    equal across all columns, and the later steps neither add nor remove a
    row.  (They may make rows equal, as [imputation_makes_rows_equal]
    shows, and nothing removes rows afterwards.) *)
Theorem rows_distinct_after_deduplication
  (pn : string -> option Q) (pt : date_converter) (df : DataFrame) :
  aligned df ->
  no_equal_rows (drop_duplicates df) /\
  forall df', clean_data pn pt df = OK df' ->
              len df' = len (drop_duplicates df).
Proof.
  intros Ha. split.
  - apply drop_duplicates_no_equal_rows, Ha.
  - intros df'. apply len_clean_data.
Qed.

Lemma rows_distinct_after_deduplication_witness :
  aligned repeated_row /\
  no_equal_rows (drop_duplicates repeated_row) /\
  forall df', clean_data parse_nothing no_dates repeated_row = OK df' ->
              len df' = len (drop_duplicates repeated_row).
Proof.
  split; [repeat constructor|].
  apply (rows_distinct_after_deduplication parse_nothing no_dates
           repeated_row).
  repeat constructor.
Defined.

(* ------------------------------------------------------------------ *)
(** ** Imputation *)

Lemma fill_bool_OK (s s' : Series) : fill_bool s = OK s' -> s' = s.
Proof.
  destruct s as [nm v]; unfold fill_bool; simpl.
  destruct v as [l|l|l|l|l|l]; intros H; try (injection H as <-; reflexivity).
  destruct (mode l); [discriminate|]. injection H as <-; reflexivity.
Qed.

(** When the imputation step returns, each column of its result is the
    imputed column at the same position. *)
Lemma fill_missing_nth (df df' : DataFrame) (i : nat) (s : Series) :
  fill_missing df = OK df' ->
  nth_error df i = Some s ->
  nth_error df' i = Some (impute s).
Proof.
  unfold fill_missing. intros H Hi.
  destruct (mapM fill_bool (map fill_category (map fill_number df)))
    as [d|e] eqn:E; simpl in H; [|discriminate].
  injection H as <-.
  assert (nth_error (map fill_category (map fill_number df)) i
          = Some (fill_category (fill_number s))) as Hi2.
  { rewrite map_map.
    apply (map_nth_error (fun x => fill_category (fill_number x)) i df Hi). }
  destruct (mapM_nth_error _ _ _ _ _ E Hi2) as [y [Hy Hd]].
  apply fill_bool_OK in Hy. subst y.
  apply (map_nth_error fill_datetime i d Hd).
Qed.





Lemma min_ts_some (l : list (option Z)) :
  dropna l <> [] -> exists m, min_ts l = Some m.
Proof.
  intros Hne. unfold min_ts. destruct (dropna l); [congruence|eauto].
Qed.

















(** Scenario 4 of the specification: values 1, 3, missing, 7. *)
Example scenario_4_median :
  median [Some 1%Q; Some 3%Q; None; Some 7%Q] = Some 3%Q /\
  clean_data parse_nothing no_dates scenario_4
  = OK [mkSeries "x" (NumberV [Some 1%Q; Some 3%Q; Some 3%Q; Some 7%Q])].
Proof. split; reflexivity. Qed.


(* ------------------------------------------------------------------ *)
(** ** Date-named columns *)

Lemma convert_dates_nth (pt : date_converter) (df : DataFrame) (i : nat)
      (s : Series) :
  nth_error df i = Some s ->
  nth_error (convert_dates pt df) i
  = Some (if date_like (name s) then assign_or_pass (to_datetime pt) s
          else s).
Proof.
  intros H. unfold convert_dates, convert_dates_with.
  apply (map_nth_error
           (fun s => if date_like (name s)
                     then assign_or_pass (to_datetime pt) s else s) i df H).
Qed.

Lemma impute_aware (s : Series) : dtype_ s = datetimetz -> impute s = s.
Proof.
  destruct s as [nm v]; destruct v; intros H; try discriminate. reflexivity.
Qed.

(** C7 (fails on the code).  Let [s1] be a column after type inference
    whose name contains one of the date keywords, and let [to_datetime]
    return for it a column [c] of timestamps with a time zone, as it does
    for text that carries UTC offsets.  Then [c] itself is what
    normalization returns at that position: [select_dtypes] with
    ['datetime'] passes over it and its missing timestamps are not filled
    with the minimum. *)
Theorem aware_date_column_is_not_filled
  (pn : string -> option Q) (pt : date_converter)
  (df df1 df' : DataFrame) (i : nat) (s1 c : Series) :
  infer_types pn (drop_duplicates df) = OK df1 ->
  nth_error df1 i = Some s1 ->
  date_like (name s1) = true ->
  to_datetime pt s1 = OK c ->
  dtype_ c = datetimetz ->
  clean_data pn pt df = OK df' ->
  nth_error df' i = Some c.
Proof.
  intros H1 Hi Hn Hc Hd H. unfold clean_data in H. rewrite H1 in H.
  simpl in H.
  pose proof (convert_dates_nth pt df1 i s1 Hi) as Hconv.
  rewrite Hn in Hconv. unfold assign_or_pass in Hconv. rewrite Hc in Hconv.
  rewrite (fill_missing_nth _ df' i c H Hconv).
  rewrite (impute_aware c Hd). reflexivity.
Qed.

Lemma aware_date_column_is_not_filled_witness :
  clean_data parse_nothing offset_dates offset_table = OK offset_table_clean /\
  nth_error offset_table_clean 0
  = Some (mkSeries "date" (DatetimeTZV [Some 1609459200000000000%Z; None])) /\
  has_missing (mkSeries "date"
                        (DatetimeTZV [Some 1609459200000000000%Z; None]))
  = true.
Proof.
  split; [reflexivity|]. split; [|reflexivity].
  apply (aware_date_column_is_not_filled parse_nothing offset_dates
           offset_table offset_table offset_table_clean 0
           (mkSeries "date"
                     (ObjectV [Some "2021-01-01T00:00:00+00:00"; Some "bad"]))
           (mkSeries "date"
                     (DatetimeTZV [Some 1609459200000000000%Z; None])));
    reflexivity.
Defined.

(** Scenario 3 of the specification: year-looking numbers under the name
    [Order_Date]. *)
Example scenario_3_result :
  clean_data parse_nothing no_dates scenario_3
  = OK [mkSeries "Order_Date"
                 (DatetimeV [Some 2021%Z; Some 2022%Z; Some 2021%Z])].
Proof. reflexivity. Qed.

(* ------------------------------------------------------------------ *)
(** ** The summary *)

Lemma cells_firstn_values (n : nat) (v : values) :
  cells (firstn_values n v) = firstn n (cells v).
Proof. destruct v; simpl; rewrite firstn_map; reflexivity. Qed.

Lemma len_head (n : nat) (df : DataFrame) :
  len (head n df) = Nat.min n (len df).
Proof.
  destruct df as [|s t]; simpl; [rewrite Nat.min_0_r; reflexivity|].
  unfold size; simpl. rewrite cells_firstn_values. apply length_firstn.
Qed.







(* ------------------------------------------------------------------ *)
(** ** A second pass *)

Lemma clean_data_columns (pn : string -> option Q) (pt : date_converter)
      (df df' : DataFrame) :
  clean_data pn pt df = OK df' <->
  mapM (clean_column pn pt (len (drop_duplicates df))) (drop_duplicates df)
  = OK df'.
Proof.
  unfold clean_data, infer_types, convert_dates, convert_dates_with,
    clean_column, finish_column.
  rewrite <- mapM_fuse.
  assert (forall d, fill_missing
                      (map (fun s => if date_like (name s)
                                     then assign_or_pass (to_datetime pt) s
                                     else s) d)
                    = mapM (fun s1 =>
                              s3 <- fill_bool
                                      (fill_category
                                         (fill_number
                                            (if date_like (name s1)
                                             then assign_or_pass
                                                    (to_datetime pt) s1
                                             else s1))) ;;
                              OK (fill_datetime s3)) d) as Hf.
  { intros d. unfold fill_missing.
    rewrite !map_map, mapM_after_map. apply mapM_then_map. }
  destruct (mapM (infer_column pn (len (drop_duplicates df)))
                 (drop_duplicates df)) as [d|e]; simpl; [|tauto].
  rewrite Hf. tauto.
Qed.

Lemma mapM_In_result {A B} (f : A -> Result B) (l : list A) (l' : list B)
      (y : B) :
  mapM f l = OK l' -> In y l' -> exists x, In x l /\ f x = OK y.
Proof.
  revert l'; induction l as [|a t IH]; simpl; intros l' H Hy.
  - injection H as <-. destruct Hy.
  - destruct (f a) as [b|e] eqn:E; simpl in H; [|discriminate].
    destruct (mapM f t) as [bs|e]; simpl in H; [|discriminate].
    injection H as <-. destruct Hy as [<-|Hy].
    + exists a. split; [left; reflexivity|exact E].
    + destruct (IH bs eq_refl Hy) as [x [Hx Hfx]].
      exists x. split; [right; exact Hx|exact Hfx].
Qed.

Lemma mapM_fixed {A} (f : A -> Result A) (l : list A) :
  (forall x, In x l -> f x = OK x) -> mapM f l = OK l.
Proof.
  intros H. rewrite (mapM_map f (fun x => x) l H). rewrite map_id. reflexivity.
Qed.

(** C3, counterexample.  Normalizing [one_and_missing] gives two equal
    rows, and normalizing that result removes one of them.  A Categorical
    column of a result goes through numeric coercion in a second pass:
    the column [c] of [status_table] comes back numeric and all missing.
    A date column with a time zone, which the first pass leaves unfilled,
    is read as int64 in a second pass, converted without a zone and
    filled. *)
Lemma second_pass_removes_a_row :
  (clean_data parse_nothing no_dates one_and_missing
   = OK [mkSeries "x" (NumberV [Some 1%Q; Some 1%Q])] /\
   clean_data parse_nothing no_dates
              [mkSeries "x" (NumberV [Some 1%Q; Some 1%Q])]
   = OK [mkSeries "x" (NumberV [Some 1%Q])]) /\
  (clean_data parse_nothing no_dates status_table = OK status_table_clean /\
   clean_data parse_nothing no_dates status_table_clean
   = OK status_table_twice) /\
  (clean_data parse_nothing offset_dates offset_table
   = OK offset_table_clean /\
   clean_data parse_nothing offset_dates offset_table_clean
   = OK offset_table_twice) /\
  ~ (forall df df',
        clean_data parse_nothing no_dates df = OK df' ->
        clean_data parse_nothing no_dates df' = OK df').
Proof.
  split; [split; reflexivity|]. split; [split; reflexivity|].
  split; [split; reflexivity|]. intros H.
  specialize (H one_and_missing _ eq_refl). discriminate.
Qed.

Lemma fillna_full {A} (v : option A) (l : list (option A)) :
  ~ In None l -> fillna v l = l.
Proof.
  induction l as [|[x|] t IH]; simpl; intros H; [reflexivity| |].
  - f_equal. apply IH. intros Hin. apply H. right. exact Hin.
  - exfalso. apply H. left. reflexivity.
Qed.

Lemma fillna_Some_full {A} (m : A) (l : list (option A)) :
  ~ In None (fillna (Some m) l).
Proof.
  induction l as [|[x|] t IH]; simpl; intros H.
  - exact H.
  - destruct H as [H|H]; [discriminate|exact (IH H)].
  - destruct H as [H|H]; [discriminate|exact (IH H)].
Qed.

(** Filling twice with the statistic of the column is filling once. *)
Lemma fillna_twice {A} (stat : list (option A) -> option A)
      (l : list (option A)) :
  (stat l = None -> stat (fillna None l) = None) ->
  fillna (stat (fillna (stat l) l)) (fillna (stat l) l) = fillna (stat l) l.
Proof.
  intros H. destruct (stat l) as [m|] eqn:E.
  - apply fillna_full, fillna_Some_full.
  - rewrite (H eq_refl). rewrite !fillna_None. reflexivity.
Qed.

Lemma fillna_median_twice (l : list (option Q)) :
  fillna (median (fillna (median l) l)) (fillna (median l) l)
  = fillna (median l) l.
Proof. apply fillna_twice. intros H. rewrite fillna_None. exact H. Qed.

Lemma fillna_min_twice (l : list (option Z)) :
  fillna (min_ts (fillna (min_ts l) l)) (fillna (min_ts l) l)
  = fillna (min_ts l) l.
Proof. apply fillna_twice. intros H. rewrite fillna_None. exact H. Qed.

Lemma fold_min_In (t : list Z) (x : Z) : In (fold_left Z.min t x) (x :: t).
Proof.
  revert x; induction t as [|a t IH]; intros x; simpl; [left; reflexivity|].
  destruct (IH (Z.min x a)) as [H|H].
  - rewrite <- H. destruct (Z.min_dec x a) as [E|E]; rewrite E; auto.
  - right; right; exact H.
Qed.


(** The minimum is one of the timestamps present. *)
Lemma min_ts_In (l : list (option Z)) (m : Z) :
  min_ts l = Some m -> In (Some m) l.
Proof.
  unfold min_ts. destruct (dropna l) as [|x t] eqn:E; intros H;
    [discriminate|].
  injection H as <-. apply dropna_In. rewrite E. apply fold_min_In.
Qed.

Lemma fillna_In {A} (v : option A) (l : list (option A)) (x : A) :
  In (Some x) (fillna v l) -> v = Some x \/ In (Some x) l.
Proof.
  induction l as [|[y|] t IH]; simpl; intros H; [destruct H| |].
  - destruct H as [H|H]; [right; left; exact H|].
    destruct (IH H); [left|right; right]; assumption.
  - destruct H as [H|H]; [left; exact H|].
    destruct (IH H); [left|right; right]; assumption.
Qed.

Lemma name_impute (s : Series) : name (impute s) = name s.
Proof.
  destruct s as [nm v]; destruct v; reflexivity.
Qed.

Lemma dtype_impute (s : Series) : dtype_ (impute s) = dtype_ s.
Proof.
  destruct s as [nm v]; destruct v; reflexivity.
Qed.

Lemma valid_some (t x : Z) : valid t = Some x -> in_bounds x = true.
Proof.
  unfold valid. destruct (in_bounds t) eqn:E; intros H; [|discriminate].
  injection H as <-. exact E.
Qed.

Lemma stored_numbers (l : list (option Q)) :
  stored (map (opt_bind ns_of_number) l).
Proof.
  intros t Hin. apply in_map_iff in Hin. destruct Hin as [[q|] [Ho _]];
    simpl in Ho; [|discriminate].
  apply (valid_some _ t Ho).
Qed.

Lemma stored_tabulate (f : nat -> option Z) (n : nat) :
  stored (tabulate (fun k => opt_bind valid (f k)) n).
Proof.
  intros t Hin. unfold tabulate in Hin. apply in_map_iff in Hin.
  destruct Hin as [k [Ho _]]. destruct (f k) as [x|]; simpl in Ho;
    [|discriminate].
  apply (valid_some _ t Ho).
Qed.

Lemma stored_fillna_min (l : list (option Z)) :
  stored l -> stored (fillna (min_ts l) l).
Proof.
  intros H t Hin. apply fillna_In in Hin. destruct Hin as [Hm|Hin].
  - apply H, min_ts_In, Hm.
  - exact (H t Hin).
Qed.

(** What [to_datetime] hands back for a column that is not a datetime
    column already holds only timestamps a datetime64 array can hold. *)
Lemma to_datetime_stored (pt : date_converter) (s1 : Series)
      (l : list (option Z)) :
  dtype_ s1 <> datetime ->
  data (assign_or_pass (to_datetime pt) s1) = DatetimeV l ->
  stored l.
Proof.
  destruct s1 as [nm v]. unfold assign_or_pass, to_datetime, dtype_; simpl.
  destruct v as [l0|l0|l0|l0|l0|l0]; simpl; intros Hd H.
  - destruct (pt l0) as [[f|f|f]|e]; simpl in H; try discriminate.
    injection H as <-. apply stored_tabulate.
  - injection H as <-. intros t Hin. apply in_map_iff in Hin.
    destruct Hin as [b [Hb _]]. discriminate.
  - injection H as <-. apply stored_numbers.
  - destruct (pt l0) as [[f|f|f]|e]; simpl in H; try discriminate.
    injection H as <-. apply stored_tabulate.
  - exfalso. apply Hd. reflexivity.
  - discriminate.
Qed.

Lemma name_to_datetime (pt : date_converter) (s : Series) :
  name (assign_or_pass (to_datetime pt) s) = name s.
Proof.
  unfold assign_or_pass, to_datetime.
  destruct (to_datetime_values pt (data s)); reflexivity.
Qed.

(** What the first loop hands on: never a datetime column, and a text
    column only when the frame has rows and the ratio is not below 0.3. *)
Lemma infer_column_out (pn : string -> option Q) (n : nat) (s s1 : Series) :
  infer_column pn n s = OK s1 ->
  dtype_ s1 <> datetime /\ dtype_ s1 <> datetimetz /\
  forall l, data s1 = ObjectV l ->
            n <> 0 /\ ratio_below_03 (nunique l) n = false.
Proof.
  destruct s as [nm v]. unfold infer_column, dtype_; simpl.
  destruct v as [l0|l0|l0|l0|l0|l0]; simpl; intros H.
  - destruct (Nat.eqb_spec n 0) as [E|E]; [discriminate|].
    destruct (ratio_below_03 (nunique l0) n) eqn:R; injection H as <-; simpl.
    + repeat split; try discriminate.
    + repeat split; try discriminate; injection H as <-; auto.
  - injection H as <-; simpl. repeat split; discriminate.
  - injection H as <-; simpl. repeat split; discriminate.
  - injection H as <-; simpl. repeat split; discriminate.
  - injection H as <-; simpl. repeat split; discriminate.
  - injection H as <-; simpl. repeat split; discriminate.
Qed.

Lemma finish_column_impute (pt : date_converter) (s1 s' : Series) :
  finish_column pt s1 = OK s' ->
  s' = impute (dated pt s1) /\
  forall l, data (dated pt s1) = BoolV l -> mode l <> [].
Proof.
  unfold finish_column. fold (dated pt s1). intros H.
  destruct (fill_bool (fill_category (fill_number (dated pt s1))))
    as [s3|e] eqn:E; simpl in H; [|discriminate].
  injection H as <-. pose proof (fill_bool_OK _ _ E) as ->.
  split; [reflexivity|]. intros l Hl Hm.
  destruct (dated pt s1) as [nm v]. simpl in Hl. subst v.
  unfold fill_bool in E; simpl in E. rewrite Hm in E. discriminate.
Qed.

Lemma name_dated (pt : date_converter) (s1 : Series) :
  name (dated pt s1) = name s1.
Proof.
  unfold dated. destruct (date_like (name s1)); [|reflexivity].
  apply name_to_datetime.
Qed.

(** A returned column that is not Categorical, and that is a Datetime
    column without a time zone when its name is date-like, is settled. *)
Lemma clean_column_settled (pn : string -> option Q) (pt : date_converter)
      (n : nat) (s s' : Series) :
  clean_column pn pt n s = OK s' ->
  dtype_ s' <> category ->
  (date_like (name s') = true -> dtype_ s' = datetime) ->
  settled n s'.
Proof.
  intros H Hcat Hdate. unfold clean_column in H.
  destruct (infer_column pn n s) as [s1|e] eqn:E1; simpl in H; [|discriminate].
  destruct (infer_column_out pn n s s1 E1) as [Hnd [Hnz Hobj]].
  destruct (finish_column_impute pt s1 s' H) as [-> Hmode].
  rewrite name_impute, name_dated in Hdate. rewrite dtype_impute in Hdate.
  rewrite dtype_impute in Hcat.
  unfold dated in *. destruct (date_like (name s1)) eqn:Hn.
  - specialize (Hdate eq_refl).
    pose proof (name_to_datetime pt s1) as Hname.
    destruct (assign_or_pass (to_datetime pt) s1) as [nm v] eqn:Ea.
    simpl in Hname. subst nm.
    destruct v as [l|l|l|l|l|l]; try discriminate.
    assert (stored l) as Hst.
    { apply (to_datetime_stored pt s1 l Hnd). rewrite Ea. reflexivity. }
    unfold settled, impute, fill_datetime; simpl.
    split; [exact Hn|]. split; [apply stored_fillna_min, Hst|].
    apply fillna_min_twice.
  - destruct s1 as [nm v]; destruct v as [l|l|l|l|l|l]; simpl in *.
    + unfold settled; simpl. destruct (Hobj l eq_refl). auto.
    + unfold settled; simpl. split; [exact Hn|]. apply Hmode. reflexivity.
    + unfold settled, impute, fill_number; simpl.
      split; [exact Hn|]. apply fillna_median_twice.
    + exfalso. apply Hcat. reflexivity.
    + exfalso. apply Hnd. reflexivity.
    + exfalso. apply Hnz. reflexivity.
Qed.

Lemma int64_round_trip (l : list (option Z)) :
  stored l ->
  map (opt_bind ns_of_number)
      (map (fun o => match o with
                     | Some t => Some (inject_Z t)
                     | None => Some (inject_Z iNaT)
                     end) l) = l.
Proof.
  induction l as [|[t|] r IH]; simpl; intros H; [reflexivity| |].
  - unfold ns_of_number at 1; simpl. rewrite Z.quot_1_r.
    unfold valid. rewrite (H t (or_introl eq_refl)).
    f_equal. apply IH. intros x Hx. apply H. right. exact Hx.
  - f_equal. apply IH. intros x Hx. apply H. right. exact Hx.
Qed.

(** A settled column comes out of a second pass as it went in. *)
Lemma settled_fixed (pn : string -> option Q) (pt : date_converter)
      (n : nat) (s : Series) :
  settled n s -> clean_column pn pt n s = OK s.
Proof.
  destruct s as [nm v]. unfold settled; simpl.
  destruct v as [l|l|l|l|l|l]; intros H;
    unfold clean_column, infer_column; simpl.
  - destruct H as [Hn [H0 Hr]]. apply Nat.eqb_neq in H0. rewrite H0, Hr.
    simpl. unfold finish_column; simpl. rewrite Hn. reflexivity.
  - destruct H as [Hn Hm]. unfold finish_column; simpl. rewrite Hn.
    unfold fill_bool; simpl. destruct (mode l); [congruence|reflexivity].
  - destruct H as [Hn Hf]. unfold finish_column, assign_or_pass; simpl.
    rewrite Hn. unfold fill_number; simpl. rewrite Hf. reflexivity.
  - destruct H.
  - destruct H as [Hn [Hi Hf]].
    unfold finish_column, assign_or_pass; simpl. rewrite Hn; simpl.
    rewrite (int64_round_trip l Hi).
    unfold fill_datetime; simpl. rewrite Hf. reflexivity.
  - destruct H.
Qed.

Lemma take_seq_app {A} (l pre : list A) :
  take (seq (List.length pre) (List.length l)) (pre ++ l) = l.
Proof.
  revert pre; induction l as [|x t IH]; intros pre; [reflexivity|].
  simpl seq. unfold take; simpl.
  rewrite nth_error_app2 by lia. rewrite Nat.sub_diag; simpl. f_equal.
  specialize (IH (pre ++ [x])).
  rewrite length_app in IH; simpl in IH. rewrite Nat.add_1_r in IH.
  rewrite <- app_assoc in IH. exact IH.
Qed.

Lemma take_all {A} (l : list A) : take (seq 0 (List.length l)) l = l.
Proof. exact (take_seq_app l []). Qed.

Lemma iloc_all (s : Series) : iloc (seq 0 (size s)) s = s.
Proof.
  destruct s as [nm v]. unfold iloc, size; simpl.
  destruct v; simpl; rewrite length_map, take_all; reflexivity.
Qed.

Lemma filter_all {A} (p : A -> bool) (l : list A) :
  (forall x, In x l -> p x = true) -> filter p l = l.
Proof.
  induction l as [|a t IH]; simpl; intros H; [reflexivity|].
  rewrite (H a (or_introl eq_refl)). f_equal. apply IH.
  intros x Hx. apply H. right. exact Hx.
Qed.

Lemma drop_duplicates_fixed (df : DataFrame) :
  aligned df -> no_equal_rows df -> drop_duplicates df = df.
Proof.
  intros Ha Hr. unfold drop_duplicates. destruct (empty df); [reflexivity|].
  assert (kept df = seq 0 (len df)) as ->.
  { unfold kept. apply filter_all. intros j Hj. apply in_seq in Hj.
    destruct (duplicated df j) eqn:E; [|reflexivity].
    unfold duplicated in E. apply existsb_exists in E.
    destruct E as [i [Hi He]]. apply in_seq in Hi.
    rewrite (Hr i j) in He by lia. discriminate. }
  transitivity (map (fun x : Series => x) df); [|apply map_id].
  apply map_ext_in. intros s Hs.
  rewrite <- (aligned_size df s Ha Hs). apply iloc_all.
Qed.

Lemma aligned_drop_duplicates (df : DataFrame) :
  aligned df -> aligned (drop_duplicates df).
Proof.
  intros Ha. unfold drop_duplicates.
  destruct (empty df) eqn:He; [exact Ha|].
  assert (df <> []) as Hne by (intros ->; discriminate).
  assert (forall k, In k (kept df) -> k < len df) as Hr
    by (intros k Hk; apply (kept_in df k Hk)).
  unfold aligned. rewrite (len_iloc df (kept df) Hne Hr).
  apply Forall_forall. intros s' Hs'. apply in_map_iff in Hs'.
  destruct Hs' as [s [<- Hs]]. apply size_iloc.
  rewrite (aligned_size df s Ha Hs). exact Hr.
Qed.

Lemma size_finish_column (pt : date_converter) (s1 s' : Series) :
  finish_column pt s1 = OK s' -> size s' = size s1.
Proof.
  unfold finish_column. intros H.
  destruct (fill_bool _) as [s3|e] eqn:E; simpl in H; [|discriminate].
  injection H as <-. rewrite size_fill_datetime.
  rewrite (size_fill_bool _ s3 E), size_fill_category, size_fill_number.
  apply size_convert_date.
Qed.

Lemma size_clean_column (pn : string -> option Q) (pt : date_converter)
      (n : nat) (s s' : Series) :
  clean_column pn pt n s = OK s' -> size s' = size s.
Proof.
  unfold clean_column. intros H.
  destruct (infer_column pn n s) as [s1|e] eqn:E; simpl in H; [|discriminate].
  rewrite (size_finish_column pt s1 s' H). apply (size_infer_column pn n s s1 E).
Qed.

Lemma aligned_mapM (f : Series -> Result Series) (df df' : DataFrame) :
  (forall s s', f s = OK s' -> size s' = size s) ->
  aligned df -> mapM f df = OK df' -> aligned df'.
Proof.
  intros Hf Ha Hm. unfold aligned. rewrite (len_mapM f df df' Hf Hm).
  apply Forall_forall. intros s' Hs'.
  destruct (mapM_In_result f df df' s' Hm Hs') as [s [Hs Hfs]].
  rewrite (Hf s s' Hfs). apply (aligned_size df s Ha Hs).
Qed.

(** C3, as amended.  Let normalization of a table return a result that
    has no Categorical column, in which every column with a date-like name
    is a Datetime column without a time zone, and in which no two rows
    are equal.  Then normalizing that result returns it unchanged: no row
    is removed, no value and no dtype changes. *)
Theorem second_pass_changes_nothing
  (pn : string -> option Q) (pt : date_converter) (df df' : DataFrame) :
  aligned df ->
  clean_data pn pt df = OK df' ->
  no_equal_rows df' ->
  (forall s, In s df' -> dtype_ s <> category) ->
  (forall s, In s df' -> date_like (name s) = true -> dtype_ s = datetime) ->
  clean_data pn pt df' = OK df'.
Proof.
  intros Ha Hc Hrows Hcat Hdate.
  apply clean_data_columns in Hc.
  set (n := len (drop_duplicates df)) in *.
  pose proof (aligned_mapM _ _ df' (size_clean_column pn pt n)
                (aligned_drop_duplicates df Ha) Hc) as Ha'.
  pose proof (len_mapM _ _ df' (size_clean_column pn pt n) Hc) as Hlen.
  apply clean_data_columns.
  rewrite (drop_duplicates_fixed df' Ha' Hrows). rewrite Hlen. fold n.
  apply mapM_fixed. intros s' Hs'.
  destruct (mapM_In_result _ _ df' s' Hc Hs') as [s [_ Hs]].
  apply settled_fixed.
  apply (clean_column_settled pn pt n s s' Hs (Hcat s' Hs') (Hdate s' Hs')).
Qed.

Lemma second_pass_changes_nothing_witness :
  clean_data parse_nothing no_dates keyed_table = OK keyed_table_clean /\
  clean_data parse_nothing no_dates keyed_table_clean
  = OK keyed_table_clean.
Proof.
  split; [reflexivity|].
  apply (second_pass_changes_nothing parse_nothing no_dates
           keyed_table keyed_table_clean).
  - repeat constructor.
  - reflexivity.
  - intros i j Hij Hj. unfold keyed_table_clean, len, size in Hj.
    simpl in Hj.
    destruct j as [|[|[|j]]]; destruct i as [|[|i]]; try lia; reflexivity.
  - intros s [<-|[<-|[]]]; discriminate.
  - intros s [<-|[<-|[]]]; discriminate.
Defined.


(* ================================================================== *)
(** * Further properties of the pipeline *)

(** ** Columns and rows across [clean_data] *)



Lemma name_infer_column (pn : string -> option Q) (n : nat) (s s1 : Series) :
  infer_column pn n s = OK s1 -> name s1 = name s.
Proof.
  destruct s as [nm v]. unfold infer_column; simpl.
  destruct v as [l|l|l|l|l|l]; simpl; intros H;
    try (injection H as <-; reflexivity).
  destruct (n =? 0); [discriminate|].
  destruct (ratio_below_03 (nunique l) n); injection H as <-; reflexivity.
Qed.

Lemma name_finish_column (pt : date_converter) (s1 s' : Series) :
  finish_column pt s1 = OK s' -> name s' = name s1.
Proof.
  intros H. destruct (finish_column_impute pt s1 s' H) as [-> _].
  rewrite name_impute. apply name_dated.
Qed.

Lemma name_clean_column (pn : string -> option Q) (pt : date_converter)
      (n : nat) (s s' : Series) :
  clean_column pn pt n s = OK s' -> name s' = name s.
Proof.
  unfold clean_column. intros H.
  destruct (infer_column pn n s) as [s1|e] eqn:E; simpl in H; [|discriminate].
  rewrite (name_finish_column pt s1 s' H). apply (name_infer_column pn n s s1 E).
Qed.

Lemma mapM_columns (f : Series -> Result Series) (df df' : DataFrame) :
  (forall s s', f s = OK s' -> name s' = name s) ->
  mapM f df = OK df' -> columns df' = columns df.
Proof.
  intros Hf. revert df'. induction df as [|s t IH]; simpl; intros df' H.
  - injection H as <-. reflexivity.
  - destruct (f s) as [y|e] eqn:E; simpl in H; [|discriminate].
    destruct (mapM f t) as [ys|e]; simpl in H; [|discriminate].
    injection H as <-. simpl. rewrite (Hf s y E). f_equal. apply IH.
    reflexivity.
Qed.

Lemma columns_drop_duplicates (df : DataFrame) :
  columns (drop_duplicates df) = columns df.
Proof.
  unfold drop_duplicates, columns. destruct (empty df); [reflexivity|].
  rewrite map_map. reflexivity.
Qed.

Lemma take_length_le {A} (idx : list nat) (l : list A) :
  List.length (take idx l) <= List.length idx.
Proof.
  unfold take. induction idx as [|i t IH]; simpl; [lia|].
  rewrite length_app. destruct (nth_error l i); simpl; lia.
Qed.

Lemma filter_length_bound {A} (p : A -> bool) (l : list A) :
  List.length (filter p l) <= List.length l.
Proof.
  induction l as [|a t IH]; simpl; [lia|]. destruct (p a); simpl; lia.
Qed.

Lemma len_drop_duplicates_le (df : DataFrame) :
  len (drop_duplicates df) <= len df.
Proof.
  unfold drop_duplicates. destruct (empty df); [lia|].
  destruct df as [|s t]; simpl; [lia|].
  unfold size at 1, iloc; simpl. rewrite cells_take_values.
  etransitivity; [apply take_length_le|].
  unfold kept. etransitivity; [apply filter_length_bound|].
  rewrite length_seq. simpl. lia.
Qed.

(** X1.  When [clean_data] returns, its result has the column labels of
    its argument, in the same order and number, and no more rows. *)
Theorem clean_data_keeps_columns
  (pn : string -> option Q) (pt : date_converter) (df df' : DataFrame) :
  clean_data pn pt df = OK df' ->
  columns df' = columns df /\ List.length df' = List.length df /\
  len df' <= len df.
Proof.
  intros H. pose proof (len_clean_data pn pt df df' H) as Hlen.
  apply clean_data_columns in H.
  assert (columns df' = columns df) as Hc.
  { rewrite (mapM_columns _ _ df' (name_clean_column pn pt _) H).
    apply columns_drop_duplicates. }
  split; [exact Hc|]. split.
  - apply (f_equal (@List.length string)) in Hc. unfold columns in Hc.
    rewrite !length_map in Hc. exact Hc.
  - rewrite Hlen. apply len_drop_duplicates_le.
Qed.

Lemma clean_data_keeps_columns_witness :
  clean_data parse_nothing no_dates keyed_table = OK keyed_table_clean /\
  columns keyed_table_clean = columns keyed_table /\
  List.length keyed_table_clean = List.length keyed_table /\
  len keyed_table_clean <= len keyed_table.
Proof.
  split; [reflexivity|].
  apply (clean_data_keeps_columns parse_nothing no_dates
           keyed_table keyed_table_clean).
  reflexivity.
Defined.

(** ** [clean_data] on a table with rows *)

Lemma mapM_returns {A B} (f : A -> Result B) (l : list A) :
  (forall x, In x l -> exists y, f x = OK y) -> exists l', mapM f l = OK l'.
Proof.
  induction l as [|a t IH]; simpl; intros H; [eauto|].
  destruct (H a (or_introl eq_refl)) as [y ->]. simpl.
  destruct IH as [ys ->]; [intros x Hx; apply H; right; exact Hx|].
  simpl. eauto.
Qed.

Lemma infer_column_returns (pn : string -> option Q) (n : nat) (s : Series) :
  0 < n -> exists s1, infer_column pn n s = OK s1.
Proof.
  intros Hn. destruct s as [nm v]. unfold infer_column; simpl.
  destruct v as [l|l|l|l|l|l]; eauto.
  destruct (Nat.eqb_spec n 0) as [E|_]; [lia|].
  destruct (ratio_below_03 (nunique l) n); eauto.
Qed.

Lemma finish_column_returns (pt : date_converter) (s1 : Series) :
  0 < size s1 -> exists s', finish_column pt s1 = OK s'.
Proof.
  intros Hs. unfold finish_column.
  set (s2 := if date_like (name s1)
             then assign_or_pass (to_datetime pt) s1 else s1).
  assert (data s2 <> BoolV []) as Hb.
  { intros E. pose proof (size_convert_date pt s1) as Hsz. fold s2 in Hsz.
    unfold size in Hsz at 1. rewrite E in Hsz. simpl in Hsz. lia. }
  rewrite (fill_bool_nonempty s2 Hb). simpl. eauto.
Qed.

Lemma clean_column_returns (pn : string -> option Q) (pt : date_converter)
      (n : nat) (s : Series) :
  0 < n -> 0 < size s -> exists s', clean_column pn pt n s = OK s'.
Proof.
  intros Hn Hs. unfold clean_column.
  destruct (infer_column_returns pn n s Hn) as [s1 E]. rewrite E. simpl.
  apply finish_column_returns. rewrite (size_infer_column pn n s s1 E).
  exact Hs.
Qed.

(** The first row is never a duplicate. *)
Lemma kept_first (df : DataFrame) :
  0 < len df -> exists t, kept df = 0 :: t.
Proof.
  intros H. unfold kept. destruct (len df) as [|m]; [lia|].
  simpl. eauto.
Qed.

Lemma len_drop_duplicates_pos (df : DataFrame) :
  0 < len df -> 0 < len (drop_duplicates df).
Proof.
  intros H. unfold drop_duplicates, empty.
  destruct (Nat.eqb_spec (len df) 0) as [E|_]; [lia|].
  destruct (kept_first df H) as [t Hk]. rewrite Hk.
  destruct df as [|s r]; simpl in *; [lia|].
  unfold size at 1, iloc; simpl. rewrite cells_take_values.
  change (take (0 :: t) (cells (data s)))
    with (match nth_error (cells (data s)) 0 with
          | Some x => [x]
          | None => []
          end ++ take t (cells (data s))).
  rewrite length_app.
  destruct (nth_error (cells (data s)) 0) eqn:E0.
  - simpl. lia.
  - apply nth_error_None in E0. unfold size in H. lia.
Qed.

(** X2.  On a table with at least one row, with columns of the length
    of the table and distinct labels, neither the type-inference loop nor
    the imputation step raises: the division by the row count and the
    lookup of the mode, which fail on a table without rows, are safe. *)
Theorem inference_and_imputation_return_on_rows
  (pn : string -> option Q) (df : DataFrame) :
  aligned df -> 0 < len df -> NoDup (columns df) ->
  (exists df1, infer_types pn (drop_duplicates df) = OK df1 /\ 0 < len df1)
  /\ (exists df', fill_missing df = OK df' /\ len df' = len df).
Proof.
  intros Ha Hn _. split.
  - pose proof (len_drop_duplicates_pos df Hn) as Hpos.
    destruct (mapM_returns (infer_column pn (len (drop_duplicates df)))
                           (drop_duplicates df)) as [df1 H].
    { intros s _. apply infer_column_returns, Hpos. }
    exists df1. split; [exact H|].
    rewrite (len_mapM _ _ df1 (size_infer_column pn _) H). exact Hpos.
  - exists (map impute df).
    assert (fill_missing df = OK (map impute df)) as H
      by (apply fill_missing_no_empty_bool, no_empty_bool; assumption).
    split; [exact H|]. apply (len_fill_missing df _ H).
Qed.

Lemma inference_and_imputation_return_on_rows_witness :
  (exists df1, infer_types parse_nothing (drop_duplicates status_table)
               = OK df1 /\ 0 < len df1)
  /\ (exists df', fill_missing status_table = OK df' /\
                  len df' = len status_table).
Proof.
  apply (inference_and_imputation_return_on_rows parse_nothing status_table).
  - repeat constructor.
  - vm_compute; lia.
  - repeat constructor; simpl; intuition discriminate.
Defined.

(** X3.  Deduplicating twice is deduplicating once. *)
Theorem drop_duplicates_idempotent (df : DataFrame) :
  aligned df ->
  drop_duplicates (drop_duplicates df) = drop_duplicates df.
Proof.
  intros Ha. apply drop_duplicates_fixed.
  - apply aligned_drop_duplicates, Ha.
  - apply drop_duplicates_no_equal_rows, Ha.
Qed.

Lemma drop_duplicates_idempotent_witness :
  drop_duplicates (drop_duplicates repeated_row) = drop_duplicates repeated_row.
Proof.
  apply (drop_duplicates_idempotent repeated_row). repeat constructor.
Defined.

(** ** A table without rows and without text columns *)

Lemma mapM_raises {A B} (f : A -> Result B) (l : list A) (e : exn) :
  (forall x e', f x = Raise e' -> e' = e) ->
  (exists x, In x l /\ f x = Raise e) ->
  mapM f l = Raise e.
Proof.
  intros Hf. induction l as [|a t IH]; intros [x [Hx Hr]]; [destruct Hx|].
  simpl. destruct (f a) as [y|e'] eqn:E; simpl.
  - destruct Hx as [->|Hx]; [congruence|].
    rewrite IH by eauto. reflexivity.
  - rewrite (Hf a e' E). reflexivity.
Qed.

Lemma fill_bool_raises_only (s : Series) (e : exn) :
  fill_bool s = Raise e -> e = KeyError "0".
Proof.
  destruct s as [nm v]; unfold fill_bool; simpl.
  destruct v as [l|l|l|l|l|l]; intros H; try discriminate.
  destruct (mode l); [|discriminate]. injection H as <-. reflexivity.
Qed.

Lemma existsb_false_In {A} (p : A -> bool) (l : list A) (x : A) :
  existsb p l = false -> In x l -> p x = false.
Proof.
  intros H Hx. destruct (p x) eqn:E; [|reflexivity].
  assert (existsb p l = true) as Ht by (apply existsb_exists; eauto).
  congruence.
Qed.

Lemma infer_column_no_rows (pn : string -> option Q) (s : Series) :
  is_object s = false ->
  infer_column pn 0 s = OK (infer_no_rows pn s).
Proof.
  destruct s as [nm v]; destruct v; intros H; try reflexivity.
  discriminate.
Qed.

(** X4.  A table without rows and without text columns that has a boolean
    column not named like a date makes [clean_data] raise KeyError 0: the
    mode of an empty column is an empty Series and [mode()[0]] looks up a
    label that is not there. *)
Theorem clean_data_no_rows_bool_column_raises
  (pn : string -> option Q) (pt : date_converter) (df : DataFrame) :
  aligned df -> len df = 0 ->
  existsb is_object df = false ->
  existsb is_plain_bool df = true ->
  clean_data pn pt df = Raise (KeyError "0").
Proof.
  intros Ha Hn Ho Hb. unfold clean_data, drop_duplicates, empty.
  rewrite Hn; simpl. unfold infer_types. rewrite Hn.
  rewrite (mapM_map (infer_column pn 0) (infer_no_rows pn) df)
    by (intros s Hs; apply infer_column_no_rows;
        apply (existsb_false_In is_object df s Ho Hs)).
  simpl. unfold fill_missing.
  rewrite (mapM_raises fill_bool _ (KeyError "0")); [reflexivity| |].
  - intros x e'. apply fill_bool_raises_only.
  - apply existsb_exists in Hb. destruct Hb as [s [Hs Hp]].
    pose proof (aligned_size df s Ha Hs) as Hsz. rewrite Hn in Hsz.
    unfold is_plain_bool in Hp. apply andb_prop in Hp. destruct Hp as [Hd Hl].
    apply negb_true_iff in Hl.
    destruct s as [nm v]; destruct v as [l|l|l|l|l|l]; try discriminate.
    destruct l as [|b l]; [|discriminate]. simpl in Hl.
    exists (mkSeries nm (BoolV [])). split; [|reflexivity].
    unfold convert_dates, convert_dates_with. rewrite !map_map.
    apply in_map_iff. exists (mkSeries nm (BoolV [])). split; [|exact Hs].
    unfold infer_no_rows; simpl. rewrite Hl. reflexivity.
Qed.

Lemma clean_data_no_rows_bool_column_raises_witness :
  clean_data parse_nothing no_dates no_rows_flag = Raise (KeyError "0").
Proof.
  apply (clean_data_no_rows_bool_column_raises parse_nothing no_dates
           no_rows_flag); try reflexivity.
  repeat constructor.
Defined.

(** ** Which columns come out as Datetime *)

Lemma dated_never_number_or_bool (pt : date_converter) (s1 : Series) :
  date_like (name s1) = true ->
  dtype_ s1 <> datetime -> dtype_ s1 <> datetimetz ->
  dtype_ (dated pt s1) <> number /\ dtype_ (dated pt s1) <> bool_.
Proof.
  intros Hn Hd Hz. unfold dated. rewrite Hn.
  destruct s1 as [nm v]. unfold assign_or_pass, to_datetime, dtype_; simpl.
  destruct v as [l|l|l|l|l|l]; simpl.
  - destruct (pt l) as [[f|f|f]|e]; simpl; split; discriminate.
  - split; discriminate.
  - split; discriminate.
  - destruct (pt l) as [[f|f|f]|e]; simpl; split; discriminate.
  - split; discriminate.
  - split; discriminate.
Qed.

Lemma clean_column_datetime (pn : string -> option Q) (pt : date_converter)
      (n : nat) (s s' : Series) :
  clean_column pn pt n s = OK s' ->
  (dtype_ s' = datetime \/ dtype_ s' = datetimetz ->
   date_like (name s') = true) /\
  (date_like (name s') = true ->
   dtype_ s' <> number /\ dtype_ s' <> bool_).
Proof.
  unfold clean_column. intros H.
  destruct (infer_column pn n s) as [s1|e] eqn:E; simpl in H; [|discriminate].
  destruct (infer_column_out pn n s s1 E) as [Hnd [Hnz _]].
  destruct (finish_column_impute pt s1 s' H) as [-> _].
  rewrite name_impute, name_dated, dtype_impute.
  destruct (date_like (name s1)) eqn:Hn.
  - split; [reflexivity|]. intros _.
    apply dated_never_number_or_bool; assumption.
  - split; [|discriminate]. unfold dated. rewrite Hn.
    intros [Hd|Hd]; exfalso; [exact (Hnd Hd)|exact (Hnz Hd)].
Qed.

(** X5.  In the result of [clean_data] only columns with a date-like name
    are datetime columns, with or without a time zone; and a column with
    a date-like name is never left Numeric or Boolean. *)
Theorem datetime_columns_are_the_date_named
  (pn : string -> option Q) (pt : date_converter) (df df' : DataFrame)
  (s' : Series) :
  clean_data pn pt df = OK df' -> In s' df' ->
  (dtype_ s' = datetime \/ dtype_ s' = datetimetz ->
   date_like (name s') = true) /\
  (date_like (name s') = true ->
   dtype_ s' <> number /\ dtype_ s' <> bool_).
Proof.
  intros H Hs. apply clean_data_columns in H.
  destruct (mapM_In_result _ _ df' s' H Hs) as [s [_ Hc]].
  apply (clean_column_datetime pn pt _ s s' Hc).
Qed.

Lemma datetime_columns_are_the_date_named_witness :
  (dtype_ (mkSeries "Order_Date"
                    (DatetimeV [Some 2021%Z; Some 2022%Z; Some 2021%Z]))
   = datetime \/
   dtype_ (mkSeries "Order_Date"
                    (DatetimeV [Some 2021%Z; Some 2022%Z; Some 2021%Z]))
   = datetimetz ->
   date_like "Order_Date" = true) /\
  (date_like "Order_Date" = true ->
   dtype_ (mkSeries "Order_Date"
                    (DatetimeV [Some 2021%Z; Some 2022%Z; Some 2021%Z]))
   <> number /\
   dtype_ (mkSeries "Order_Date"
                    (DatetimeV [Some 2021%Z; Some 2022%Z; Some 2021%Z]))
   <> bool_).
Proof.
  apply (datetime_columns_are_the_date_named parse_nothing no_dates
           scenario_3
           [mkSeries "Order_Date"
                     (DatetimeV [Some 2021%Z; Some 2022%Z; Some 2021%Z])]).
  - reflexivity.
  - left; reflexivity.
Defined.

(** ** What deduplication keeps *)

Lemma cell_eqb_refl (c : cell) : cell_eqb c c = true.
Proof.
  destruct c; simpl; [reflexivity|apply String.eqb_refl|apply Bool.eqb_reflx
                      |apply Qeq_bool_refl|apply Z.eqb_refl].
Qed.

Lemma cell_eqb_trans (a b c : cell) :
  cell_eqb a b = true -> cell_eqb b c = true -> cell_eqb a c = true.
Proof.
  destruct a, b; simpl; try discriminate; destruct c; simpl;
    try discriminate; intros H1 H2.
  - reflexivity.
  - apply String.eqb_eq in H1, H2. subst. apply String.eqb_refl.
  - apply Bool.eqb_prop in H1, H2. subst. apply Bool.eqb_reflx.
  - apply (Qeq_bool_trans _ _ _ H1 H2).
  - apply Z.eqb_eq in H1, H2. subst. apply Z.eqb_refl.
Qed.

Lemma row_eqb_refl (r : list cell) : row_eqb r r = true.
Proof.
  induction r as [|c t IH]; simpl; [reflexivity|].
  rewrite cell_eqb_refl, IH. reflexivity.
Qed.

Lemma row_eqb_trans (r1 r2 r3 : list cell) :
  row_eqb r1 r2 = true -> row_eqb r2 r3 = true -> row_eqb r1 r3 = true.
Proof.
  revert r2 r3; induction r1 as [|a t1 IH]; intros [|b t2] [|c t3]; simpl;
    try discriminate; [reflexivity|].
  intros H1 H2. apply andb_prop in H1, H2.
  destruct H1 as [Ha Ht], H2 as [Hb Hu].
  rewrite (cell_eqb_trans a b c Ha Hb), (IH t2 t3 Ht Hu). reflexivity.
Qed.

(** Every row equals a row at a kept position. *)
Lemma kept_represents (df : DataFrame) (i : nat) :
  i < len df ->
  exists j, In j (kept df) /\ row_eqb (row df j) (row df i) = true.
Proof.
  induction i as [i IH] using lt_wf_ind. intros Hi.
  destruct (duplicated df i) eqn:E.
  - unfold duplicated in E. apply existsb_exists in E.
    destruct E as [j0 [Hj0 He]]. apply in_seq in Hj0.
    destruct (IH j0) as [j [Hj Hr]]; [lia|lia|].
    exists j. split; [exact Hj|]. apply (row_eqb_trans _ _ _ Hr He).
  - exists i. split; [|apply row_eqb_refl].
    unfold kept. apply filter_In. split; [apply in_seq; lia|].
    rewrite E. reflexivity.
Qed.

(** X6.  Deduplication loses no row value: every row of the table equals,
    across all columns, a row of the deduplicated table. *)
Theorem drop_duplicates_represents_every_row (df : DataFrame) (i : nat) :
  aligned df -> i < len df ->
  exists k, k < len (drop_duplicates df) /\
            row_eqb (row (drop_duplicates df) k) (row df i) = true.
Proof.
  intros Ha Hi. unfold drop_duplicates, empty.
  destruct (Nat.eqb_spec (len df) 0) as [E|_]; [lia|].
  assert (df <> []) as Hne by (intros ->; simpl in Hi; lia).
  assert (forall k, In k (kept df) -> k < len df) as Hr
    by (intros k Hk; apply (kept_in df k Hk)).
  destruct (kept_represents df i Hi) as [j [Hj Hrow]].
  destruct (In_nth (kept df) j 0 Hj) as [k [Hk Hnth]].
  exists k. rewrite (len_iloc df (kept df) Hne Hr). split; [exact Hk|].
  rewrite (row_iloc df (kept df) k Ha Hr Hk), Hnth. exact Hrow.
Qed.

Lemma drop_duplicates_represents_every_row_witness :
  exists k, k < len (drop_duplicates repeated_row) /\
            row_eqb (row (drop_duplicates repeated_row) k)
                    (row repeated_row 2) = true.
Proof.
  apply (drop_duplicates_represents_every_row repeated_row 2).
  - repeat constructor.
  - vm_compute; lia.
Defined.

(** ** Names that count as dates *)

Lemma prefix_app (kw b : string) : prefix kw (kw ++ b)%string = true.
Proof.
  induction kw as [|c k IH]; simpl; [destruct b; reflexivity|].
  destruct (ascii_dec c c) as [_|N]; [exact IH|congruence].
Qed.

Lemma contains_prefix (kw s : string) :
  prefix kw s = true -> contains kw s = true.
Proof. intros H. destruct s; cbn [contains]; rewrite H; reflexivity. Qed.

Lemma contains_app (kw a b : string) :
  contains kw (a ++ kw ++ b)%string = true.
Proof.
  induction a as [|c a IH]; simpl.
  - apply contains_prefix, prefix_app.
  - rewrite IH. apply Bool.orb_true_r.
Qed.

Lemma lower_app (a b : string) :
  lower (a ++ b)%string = (lower a ++ lower b)%string.
Proof. induction a as [|c a IH]; simpl; [reflexivity|rewrite IH; reflexivity]. Qed.

(** X7.  A column label that contains date, time, year, day or month
    anywhere inside it, in any mix of upper and lower case, counts as a
    date column. *)
Theorem date_like_substring (a m b : string) :
  In (lower m) date_keywords ->
  date_like (a ++ m ++ b)%string = true.
Proof.
  intros H. unfold date_like. apply existsb_exists.
  exists (lower m). split; [exact H|].
  rewrite !lower_app. apply contains_app.
Qed.

Lemma date_like_substring_witness :
  date_like ("Birth" ++ "DAY" ++ "_count")%string = true.
Proof.
  apply (date_like_substring "Birth" "DAY" "_count").
  simpl. auto.
Defined.

(** ** The column groups of the summary *)

(** X8.  The four column groups of the summary cover every column but
    the datetime columns with a time zone: the sizes of the groups and the
    number of such columns add up to the column count; a column of any
    other dtype is listed in the group of its dtype (text and Categorical
    columns together); a datetime column with a time zone is selected for
    none of the four groups. *)
Theorem summary_groups_split_the_columns (df : DataFrame) :
  List.length (numeric_columns df) + List.length (categorical_columns df)
  + List.length (datetime_columns df) + List.length (boolean_columns df)
  + List.length (filter (fun s => dtype_eqb (dtype_ s) datetimetz) df)
  = num_cols df /\
  forall s, In s df ->
            match dtype_ s with
            | number => In (name s) (numeric_columns df)
            | object | category => In (name s) (categorical_columns df)
            | datetime => In (name s) (datetime_columns df)
            | bool_ => In (name s) (boolean_columns df)
            | datetimetz =>
                ~ In s (select_dtypes [number] df) /\
                ~ In s (select_dtypes [object; category] df) /\
                ~ In s (select_dtypes [datetime] df) /\
                ~ In s (select_dtypes [bool_] df)
            end.
Proof.
  split.
  - unfold numeric_columns, categorical_columns, datetime_columns,
      boolean_columns, num_cols, columns, select_dtypes.
    induction df as [|[nm v] t IH]; [reflexivity|].
    destruct v; simpl in *; lia.
  - intros s Hs.
    unfold numeric_columns, categorical_columns, datetime_columns,
      boolean_columns, columns, select_dtypes.
    destruct (dtype_ s) eqn:E;
      try (apply in_map; apply filter_In;
           split; [exact Hs|rewrite E; reflexivity]).
    repeat split; intros H; apply filter_In in H; destruct H as [_ H];
      rewrite E in H; discriminate.
Qed.

Lemma summary_groups_split_the_columns_witness :
  List.length (numeric_columns offset_table_clean)
  + List.length (categorical_columns offset_table_clean)
  + List.length (datetime_columns offset_table_clean)
  + List.length (boolean_columns offset_table_clean)
  + List.length (filter (fun s => dtype_eqb (dtype_ s) datetimetz)
                        offset_table_clean)
  = num_cols offset_table_clean /\
  forall s, In s offset_table_clean ->
            match dtype_ s with
            | number => In (name s) (numeric_columns offset_table_clean)
            | object | category =>
                In (name s) (categorical_columns offset_table_clean)
            | datetime => In (name s) (datetime_columns offset_table_clean)
            | bool_ => In (name s) (boolean_columns offset_table_clean)
            | datetimetz =>
                ~ In s (select_dtypes [number] offset_table_clean) /\
                ~ In s (select_dtypes [object; category] offset_table_clean) /\
                ~ In s (select_dtypes [datetime] offset_table_clean) /\
                ~ In s (select_dtypes [bool_] offset_table_clean)
            end.
Proof. exact (summary_groups_split_the_columns offset_table_clean). Defined.

(** ** Values that imputation leaves alone *)







(** ** Loading, insights and the page *)

Lemma columns_clean_data (pn : string -> option Q) (pt : date_converter)
      (df df' : DataFrame) :
  clean_data pn pt df = OK df' -> columns df' = columns df.
Proof.
  intros H. apply clean_data_columns in H.
  rewrite (mapM_columns _ _ df' (name_clean_column pn pt _) H).
  apply columns_drop_duplicates.
Qed.


(** X10.  For an uploaded file [load_data] has two outcomes only.  Either
    the reader chosen by the extension and [clean_data] both returned:
    then the cleaned frame is returned, nothing is reported, and the frame
    has the column labels the reader produced.  Or [None] is returned
    together with exactly one message, prefixed [Error loading file: ]. *)
Theorem load_data_outcomes
  (pn : string -> option Q) (pt : date_converter)
  (read_csv read_excel : UploadedFile -> Result DataFrame)
  (file : UploadedFile) (r : option DataFrame) (msgs : list string) :
  load_data pn pt read_csv read_excel (Some file) = (r, msgs) ->
  (exists df df',
      (if endswith (file_name file) ".csv"
       then read_csv file else read_excel file) = OK df /\
      clean_data pn pt df = OK df' /\
      r = Some df' /\ msgs = [] /\ columns df' = columns df)
  \/ (exists e, r = None /\
                msgs = [("Error loading file: " ++ exn_str e)%string]).
Proof.
  unfold load_data, load_and_clean. intros H.
  destruct (if endswith (file_name file) ".csv"
            then read_csv file else read_excel file) as [df|e] eqn:Er;
    simpl in H.
  - destruct (clean_data pn pt df) as [df'|e] eqn:Ec.
    + injection H as <- <-. left. exists df, df'.
      repeat split; try reflexivity. exact Ec.
      apply (columns_clean_data pn pt df df' Ec).
    + injection H as <- <-. right. exists e. split; reflexivity.
  - injection H as <- <-. right. exists e. split; reflexivity.
Qed.

Lemma load_data_outcomes_witness :
  (exists df df',
      (if endswith "t.xlsx" ".csv"
       then Raise (ReaderError "no csv") else OK keyed_table) = OK df /\
      clean_data parse_nothing no_dates df = OK df' /\
      Some keyed_table_clean = Some df' /\ @nil string = [] /\
      columns df' = columns df)
  \/ (exists e, Some keyed_table_clean = None /\
                @nil string = [("Error loading file: " ++ exn_str e)%string]).
Proof.
  apply (load_data_outcomes parse_nothing no_dates
           (fun _ => Raise (ReaderError "no csv")) (fun _ => OK keyed_table)
           (mkFile "t.xlsx" "bytes") (Some keyed_table_clean) []).
  reflexivity.
Defined.





(** X13.  When the reader and [clean_data] return, the page shows, in this
    order: the two headings, the preview heading, the first
    min(10, N) rows of the cleaned frame, the insights heading, at most one
    error box of the chain, and one text, the insights or the fallback. *)
Theorem main_shows_preview_and_insights
  (pn : string -> option Q) (pt : date_converter)
  (read_csv read_excel : UploadedFile -> Result DataFrame)
  (repr : string -> string) (to_string : DataFrame -> string)
  (run_chain : string -> Result string)
  (file : UploadedFile) (df df' : DataFrame) :
  (if endswith (file_name file) ".csv"
   then read_csv file else read_excel file) = OK df ->
  clean_data pn pt df = OK df' ->
  exists insights errs,
    generate_insights repr to_string run_chain df' = (insights, errs) /\
    List.length errs <= 1 /\
    (errs = [] \/ insights = insights_fallback) /\
    len (head 10 df') = Nat.min 10 (len df') /\
    main pn pt read_csv read_excel repr to_string run_chain (Some file)
    = [Markdown page_title; Markdown page_subheader;
       Markdown preview_header; DataframeView (head 10 df');
       Markdown insights_header]
      ++ map ErrorBox errs ++ [WriteText insights].
Proof.
  intros Hr Hc.
  destruct (generate_insights repr to_string run_chain df')
    as [insights errs] eqn:G.
  exists insights, errs. split; [reflexivity|].
  assert (List.length errs <= 1 /\ (errs = [] \/ insights = insights_fallback))
    as [Hl Hf].
  { unfold generate_insights in G.
    destruct (run_chain (get_dataset_summary repr to_string df'));
      injection G as <- <-; simpl; split; auto. }
  split; [exact Hl|]. split; [exact Hf|]. split; [apply len_head|].
  unfold main, load_data, load_and_clean. rewrite Hr; simpl. rewrite Hc.
  simpl. unfold show_frame. rewrite G. reflexivity.
Qed.

Lemma main_shows_preview_and_insights_witness :
  exists insights errs,
    generate_insights (fun s => s) (fun _ => EmptyString)
                      (fun _ => Raise (ReaderError "model offline"))
                      keyed_table_clean = (insights, errs) /\
    List.length errs <= 1 /\
    (errs = [] \/ insights = insights_fallback) /\
    len (head 10 keyed_table_clean) = Nat.min 10 (len keyed_table_clean) /\
    main parse_nothing no_dates
         (fun _ => OK keyed_table) (fun _ => Raise (ReaderError "no workbook"))
         (fun s => s) (fun _ => EmptyString)
         (fun _ => Raise (ReaderError "model offline"))
         (Some (mkFile "k.csv" "bytes"))
    = [Markdown page_title; Markdown page_subheader;
       Markdown preview_header; DataframeView (head 10 keyed_table_clean);
       Markdown insights_header]
      ++ map ErrorBox errs ++ [WriteText insights].
Proof.
  apply (main_shows_preview_and_insights parse_nothing no_dates
           (fun _ => OK keyed_table)
           (fun _ => Raise (ReaderError "no workbook"))
           (fun s => s) (fun _ => EmptyString)
           (fun _ => Raise (ReaderError "model offline"))
           (mkFile "k.csv" "bytes") keyed_table keyed_table_clean);
    reflexivity.
Defined.

(** ** The values that fill the gaps *)

Lemma fold_min_le_init (t : list Z) (x : Z) : (fold_left Z.min t x <= x)%Z.
Proof.
  revert x; induction t as [|a t IH]; intros x; simpl; [lia|].
  specialize (IH (Z.min x a)). lia.
Qed.

Lemma fold_min_le (t : list Z) (x y : Z) :
  In y (x :: t) -> (fold_left Z.min t x <= y)%Z.
Proof.
  intros [<-|H]; [apply fold_min_le_init|].
  revert x; induction t as [|a t IH]; intros x; [destruct H|].
  simpl. destruct H as [->|H].
  - pose proof (fold_min_le_init t (Z.min x y)). lia.
  - apply IH, H.
Qed.


(** X14.  A missing timestamp is filled with the earliest timestamp of its
    column: the value written is one of the timestamps present and no
    timestamp present is earlier. *)
Theorem missing_timestamp_gets_the_earliest
  (nm : string) (l : list (option Z)) (k : nat) :
  nth_error l k = Some None ->
  dropna l <> [] ->
  exists m,
    nth_error (cells (data (fill_datetime (mkSeries nm (DatetimeV l))))) k
    = Some (Time m) /\
    In (Some m) l /\
    forall x, In (Some x) l -> (m <= x)%Z.
Proof.
  intros Hk Hne. destruct (min_ts_some l Hne) as [m Hm].
  exists m. split; [|split].
  - unfold fill_datetime; simpl. rewrite Hm.
    unfold fillna. rewrite !nth_error_map, Hk. reflexivity.
  - apply min_ts_In, Hm.
  - intros x Hx. apply In_dropna in Hx. unfold min_ts in Hm.
    destruct (dropna l) as [|y t]; [discriminate|].
    injection Hm as <-. apply fold_min_le, Hx.
Qed.

Lemma missing_timestamp_gets_the_earliest_witness :
  exists m,
    nth_error (cells (data (fill_datetime
                              (mkSeries "day"
                                        (DatetimeV [Some 5%Z; None; Some 2%Z])))))
              1 = Some (Time m) /\
    In (Some m) [Some 5%Z; None; Some 2%Z] /\
    forall x, In (Some x) [Some 5%Z; None; Some 2%Z] -> (m <= x)%Z.
Proof.
  apply (missing_timestamp_gets_the_earliest "day"
           [Some 5%Z; None; Some 2%Z] 1).
  - reflexivity.
  - discriminate.
Defined.



(** ** Date-named columns that convert to plain timestamps, or not at all *)

(** X16.  Let [s1] be a column after type inference whose name contains a
    date keyword, and let [to_datetime] return for it timestamps [l]
    without a time zone.  Then the result of normalization holds at that
    position a Datetime column of the same name and length; every
    timestamp of [l] is kept in its place; every missing place holds the
    earliest timestamp of [l], and is left missing only when [l] has no
    timestamp at all. *)
Theorem naive_date_column_is_filled
  (pn : string -> option Q) (pt : date_converter)
  (df df1 df' : DataFrame) (i : nat) (s1 : Series) (l : list (option Z)) :
  infer_types pn (drop_duplicates df) = OK df1 ->
  nth_error df1 i = Some s1 ->
  date_like (name s1) = true ->
  to_datetime pt s1 = OK (mkSeries (name s1) (DatetimeV l)) ->
  clean_data pn pt df = OK df' ->
  exists l',
    nth_error df' i = Some (mkSeries (name s1) (DatetimeV l')) /\
    List.length l' = List.length l /\
    (forall k t, nth_error l k = Some (Some t) ->
                 nth_error l' k = Some (Some t)) /\
    (forall k, nth_error l k = Some None ->
               (dropna l = [] /\ nth_error l' k = Some None) \/
               (exists m, nth_error l' k = Some (Some m) /\ In (Some m) l /\
                          forall x, In (Some x) l -> (m <= x)%Z)).
Proof.
  intros H1 Hi Hn Hc H. unfold clean_data in H. rewrite H1 in H. simpl in H.
  pose proof (convert_dates_nth pt df1 i s1 Hi) as Hconv.
  rewrite Hn in Hconv. unfold assign_or_pass in Hconv. rewrite Hc in Hconv.
  pose proof (fill_missing_nth _ df' i _ H Hconv) as Hr.
  exists (fillna (min_ts l) l). split; [exact Hr|].
  split; [unfold fillna; apply length_map|].
  split.
  - intros k t Hk. unfold fillna. rewrite nth_error_map, Hk. reflexivity.
  - intros k Hk. unfold fillna. rewrite nth_error_map, Hk. simpl.
    destruct (min_ts l) as [m|] eqn:Hm.
    + right. exists m. split; [reflexivity|].
      split; [apply min_ts_In, Hm|].
      intros x Hx. apply In_dropna in Hx. unfold min_ts in Hm.
      destruct (dropna l) as [|y t]; [discriminate|].
      injection Hm as <-. apply fold_min_le, Hx.
    + left. split; [|reflexivity]. unfold min_ts in Hm.
      destruct (dropna l); [reflexivity|discriminate].
Qed.

Lemma naive_date_column_is_filled_witness :
  exists l',
    nth_error [mkSeries "Order_Date"
                        (DatetimeV [Some 2021%Z; Some 2022%Z; Some 2021%Z])] 0
    = Some (mkSeries "Order_Date" (DatetimeV l')) /\
    List.length l' = List.length [Some 2021%Z; Some 2022%Z; None] /\
    (forall k t, nth_error [Some 2021%Z; Some 2022%Z; None] k = Some (Some t) ->
                 nth_error l' k = Some (Some t)) /\
    (forall k, nth_error [Some 2021%Z; Some 2022%Z; None] k = Some None ->
               (dropna [Some 2021%Z; Some 2022%Z; None] = [] /\
                nth_error l' k = Some None) \/
               (exists m, nth_error l' k = Some (Some m) /\
                          In (Some m) [Some 2021%Z; Some 2022%Z; None] /\
                          forall x, In (Some x) [Some 2021%Z; Some 2022%Z; None]
                                    -> (m <= x)%Z)).
Proof.
  apply (naive_date_column_is_filled parse_nothing no_dates
           scenario_3 scenario_3
           [mkSeries "Order_Date"
                     (DatetimeV [Some 2021%Z; Some 2022%Z; Some 2021%Z])]
           0 (mkSeries "Order_Date" (NumberV [Some 2021%Q; Some 2022%Q; None]))
           [Some 2021%Z; Some 2022%Z; None]);
    reflexivity.
Defined.

(** X17.  When [to_datetime] raises on a date-named column, the [except]
    branch passes: normalization goes on, and the column keeps at its
    position the name and the dtype that type inference gave it. *)
Theorem failed_conversion_keeps_the_column
  (pn : string -> option Q) (pt : date_converter)
  (df df1 df' : DataFrame) (i : nat) (s1 : Series) (e : exn) :
  infer_types pn (drop_duplicates df) = OK df1 ->
  nth_error df1 i = Some s1 ->
  date_like (name s1) = true ->
  to_datetime pt s1 = Raise e ->
  clean_data pn pt df = OK df' ->
  exists s', nth_error df' i = Some s' /\
             name s' = name s1 /\ dtype_ s' = dtype_ s1 /\
             size s' = size s1.
Proof.
  intros H1 Hi Hn Hc H. unfold clean_data in H. rewrite H1 in H. simpl in H.
  pose proof (convert_dates_nth pt df1 i s1 Hi) as Hconv.
  rewrite Hn in Hconv. unfold assign_or_pass in Hconv. rewrite Hc in Hconv.
  exists (impute s1). split; [apply (fill_missing_nth _ df' i s1 H Hconv)|].
  split; [apply name_impute|]. split; [apply dtype_impute|].
  unfold impute.
  rewrite size_fill_datetime, size_fill_category, size_fill_number.
  reflexivity.
Qed.

Lemma failed_conversion_keeps_the_column_witness :
  clean_data parse_nothing failing_dates birthday_table = OK birthday_table /\
  exists s', nth_error birthday_table 0 = Some s' /\
             name s' = "birthday" /\ dtype_ s' = object /\
             size s' = 2.
Proof.
  split; [reflexivity|].
  apply (failed_conversion_keeps_the_column parse_nothing failing_dates
           birthday_table birthday_table birthday_table 0
           (mkSeries "birthday" (ObjectV [Some "spring"; Some "autumn"]))
           (ConversionError "Unknown datetime string format"));
    reflexivity.
Defined.
